(** * Stavily agent plugins: the plugin protocol of the example plugins

    A shallow embedding of the two example plugins of the repository,

      - [examples/plugins/cpu-monitor/cpu_monitor.py]      (trigger plugin)
      - [examples/plugins/service-restart/service_restart.py] (action plugin)

    and of the line protocol their [main] functions speak, followed by the
    properties of the protocol specification that concern them.

    Modelling decisions, in one place:

    - Python values are the type [pyval].  A [dict] is an association list in
      insertion order (the order [json.dumps] prints), a [float] is an IEEE
      binary64 value of the standard library's [spec_float].
    - [datetime] values are microsecond counts ([Z]); a [timedelta] is their
      difference.  The text [d.isoformat()] is kept as [PIsoTime d] and the
      float [td.total_seconds()] as [PSeconds td], so that arithmetic on the
      instants stays exact.
    - Everything the plugins ask the outside for (the clock, the CPU sensor,
      the host queries, the process runner, the environment, and the library
      parsers [json.loads], [float(str)], [int(str)]) is an oracle of the
      record [Env].  Each call consumes one index of the oracle: the world
      counts the calls.  The standard input is the sequence of the outcomes
      of [readline()], a line or an exception, followed by the end of
      input.
    - Methods are computations in a state-and-exception monad over the plugin
      object and the world.  Logging goes to the standard error stream and
      touches neither; it is left out.  [KeyboardInterrupt] is asynchronous
      and left out as well.
    - Exception messages are those of CPython 3.12. *)

From Stdlib Require Import ZArith List String Ascii Bool Lia.
From Stdlib Require Import DecimalString DecimalZ.
From Stdlib Require Import Floats.SpecFloat.
Import ListNotations.

Local Open Scope string_scope.
Local Open Scope Z_scope.

(* ================================================================== *)
(** ** Floats *)

Definition float : Type := spec_float.

Module PyFloat.

Definition prec : Z := 53.
Definition emax : Z := 1024.

(** The Python floats are the values of [spec_float] that are valid binary64
    numbers ([valid_binary prec emax]); nothing below depends on validity.

    [float(n)] for an integer that fits: round to nearest, ties to even. *)
Definition of_Z (z : Z) : float := binary_normalize prec emax z 0 false.

Definition ltb (a b : float) : bool := SFltb a b.
Definition leb (a b : float) : bool := SFleb a b.
Definition eqb (a b : float) : bool := SFeqb a b.

Definition is_nan (a : float) : bool :=
  match a with S754_nan => true | _ => false end.

Definition is_zero (a : float) : bool :=
  match a with S754_zero _ => true | _ => false end.

(** [int(x)] truncates towards zero; [None] stands for the two failures
    (not a number, infinite), which the caller turns into exceptions. *)
Definition trunc (a : float) : option Z :=
  match a with
  | S754_zero _ => Some 0
  | S754_finite s m e =>
      let mag := if 0 <=? e then Z.shiftl (Zpos m) e
                 else Z.shiftr (Zpos m) (- e) in
      Some (if s then - mag else mag)
  | S754_infinity _ | S754_nan => None
  end.

Definition f0 : float := Eval vm_compute in of_Z 0.
Definition f1 : float := Eval vm_compute in of_Z 1.
Definition f80 : float := Eval vm_compute in of_Z 80.
Definition f85 : float := Eval vm_compute in of_Z 85.
Definition f90 : float := Eval vm_compute in of_Z 90.
Definition f95 : float := Eval vm_compute in of_Z 95.
Definition f100 : float := Eval vm_compute in of_Z 100.

End PyFloat.

(* ================================================================== *)
(** ** Python values *)

#[warnings="-register-all"]
Inductive pyval : Type :=
| PNone
| PBool (b : bool)
| PInt (z : Z)
| PFloat (f : float)
| PStr (s : string)
| PList (l : list pyval)
| PDict (d : list (string * pyval))
| PIsoTime (t : Z)      (* the str [datetime.isoformat()] of instant [t] *)
| PSeconds (us : Z).    (* the float [timedelta.total_seconds()] of [us] microseconds *)

Definition dict := list (string * pyval).

(** [d.get(k)] as an option, first binding of the key. *)
Fixpoint dict_find (d : dict) (k : string) : option pyval :=
  match d with
  | [] => None
  | (k', v) :: d' => if String.eqb k' k then Some v else dict_find d' k
  end.

(** [d.get(k, dflt)] *)
Definition dict_get (d : dict) (k : string) (dflt : pyval) : pyval :=
  match dict_find d k with
  | Some v => v
  | None => dflt
  end.

(** [d[k] = v]: an existing key keeps its place, a new one goes last. *)
Fixpoint dict_set (d : dict) (k : string) (v : pyval) : dict :=
  match d with
  | [] => [(k, v)]
  | (k', v') :: d' =>
      if String.eqb k' k then (k', v) :: d' else (k', v') :: dict_set d' k v
  end.

(** [d.update(u)] *)
Definition dict_update (d u : dict) : dict :=
  fold_left (fun acc kv => dict_set acc (fst kv) (snd kv)) u d.

Definition dict_has (d : dict) (k : string) : bool :=
  match dict_find d k with Some _ => true | None => false end.

(** [type(v).__name__] *)
Definition type_name (v : pyval) : string :=
  match v with
  | PNone => "NoneType"
  | PBool _ => "bool"
  | PInt _ => "int"
  | PFloat _ | PSeconds _ => "float"
  | PStr _ | PIsoTime _ => "str"
  | PList _ => "list"
  | PDict _ => "dict"
  end.

(** Truth value of an object, as [if v:] and [not v] take it. *)
Definition truthy (v : pyval) : bool :=
  match v with
  | PNone => false
  | PBool b => b
  | PInt z => negb (z =? 0)
  | PFloat f => negb (PyFloat.is_zero f)
  | PStr s => negb (String.eqb s "")
  | PList l => match l with [] => false | _ => true end
  | PDict d => match d with [] => false | _ => true end
  | PIsoTime _ => true
  | PSeconds us => negb (us =? 0)
  end.

(** [v == s] for a str literal [s]: only a str can equal a str. *)
Definition eq_str (v : pyval) (s : string) : bool :=
  match v with
  | PStr s' => String.eqb s' s
  | _ => false
  end.

(** [v in [s1, s2, ...]] for a list of str literals. *)
Definition in_strs (v : pyval) (l : list string) : bool :=
  existsb (eq_str v) l.

(** [str(n)] for an int. *)
Definition str_of_Z (z : Z) : string := NilEmpty.string_of_int (Z.to_int z).

(* ================================================================== *)
(** ** Exceptions *)

Inductive exn_kind : Type :=
| KeyError | TypeError | AttributeError | ValueError | OverflowError
| RuntimeError | CalledProcessError | TimeoutExpired | FileNotFoundError
| JSONDecodeError | RecursionError | UnicodeDecodeError | OSError
| OtherError.

(** An exception (an instance of [Exception]) with the text [str(e)]
    gives.  [JSONDecodeError] is the one class the loop tells apart. *)
Record exn : Type := Exn { exn_kind_of : exn_kind; exn_str : string }.

Definition quote (s : string) : string := "'" ++ s ++ "'".

(** [d[k]] on a dict without [k]: [str(KeyError(k))] is [repr(k)]. *)
Definition key_error (k : string) : exn := Exn KeyError (quote k).

Definition no_attribute (v : pyval) (attr : string) : exn :=
  Exn AttributeError
      (quote (type_name v) ++ " object has no attribute " ++ quote attr).

(** [v[k]] for a str key on something that is not a dict. *)
Definition bad_subscript (v : pyval) : exn :=
  match v with
  | PList _ => Exn TypeError "list indices must be integers or slices, not str"
  | PStr _ | PIsoTime _ => Exn TypeError "string indices must be integers, not 'str'"
  | _ => Exn TypeError (quote (type_name v) ++ " object is not subscriptable")
  end.

Inductive outcome (A : Type) : Type :=
| Ok (a : A)
| Raise (e : exn).
Arguments Ok {A} a.
Arguments Raise {A} e.

(* ================================================================== *)
(** ** The outside world *)

(** What [subprocess.run] hands back when the process ran to its end. *)
Record completed : Type :=
  Completed { returncode : Z; proc_stdout : string; proc_stderr : string }.

(** What the host queries that fill a trigger event return: the CPU count of
    [psutil.cpu_count()] and the load average of [os.getloadavg()], [None]
    where [os] has no such function. *)
Record host_facts : Type := {
  cpu_count : option Z;
  loadavg : option (float * float * float)
}.

(** The oracles.  An oracle indexed by [nat] answers the call made at that
    tick of the world.

    [host_probe] stands for the three queries a trigger event is filled
    from, made one after the other: [psutil.cpu_count()], [os.getloadavg()]
    and [os.uname()].  It gives the facts when all three return (the host
    name being [nodename]) and the exception of the first that raises
    otherwise.

    [json_loads] raises [JSONDecodeError] on text that is not JSON, and can
    raise other exceptions on text that is (a [ValueError] on an integer of
    too many digits, a [RecursionError] on deep nesting). *)
Record Env : Type := {
  clock : nat -> Z;                       (* datetime.now(), in microseconds *)
  unix_time : nat -> Z;                   (* int(time.time()) *)
  cpu_percent : nat -> exn + float;       (* psutil.cpu_percent(interval=1) *)
  host_probe : nat -> exn + host_facts;   (* the host queries of an event *)
  nodename : string;                      (* os.uname().nodename *)
  demo_mode_var : option string;          (* os.getenv("STAVILY_DEMO_MODE") *)
  subprocess_run : nat -> list string -> exn + completed;
  json_loads : string -> outcome pyval;   (* json.loads: a value or an exception *)
  float_of_str : string -> option float;  (* None: ValueError *)
  int_of_str : string -> option Z;        (* None: ValueError *)
  repr_other : pyval -> string            (* str() of floats and containers *)
}.

Record World : Type := {
  env : Env;
  tick : nat;                 (* oracle calls made so far *)
  stdout : list pyval         (* the objects printed, one JSON line each *)
}.

(** A plugin object of type [P] living in the world. *)
Record Sys (P : Type) : Type := { self : P; world : World }.
Arguments self {P} s.
Arguments world {P} s.
Arguments Build_Sys {P} self world.

(* ================================================================== *)
(** ** The monad of methods: state and exceptions *)

Definition M (P A : Type) : Type := Sys P -> outcome A * Sys P.

Definition ret {P A} (a : A) : M P A := fun s => (Ok a, s).

Definition bind {P A B} (m : M P A) (k : A -> M P B) : M P B :=
  fun s =>
    match m s with
    | (Ok a, s') => k a s'
    | (Raise e, s') => (Raise e, s')
    end.

Definition raise {P A} (e : exn) : M P A := fun s => (Raise e, s).

(** [try: m  except Exception as e: h e].  The state reached when the
    exception was raised is the one the handler starts from. *)
Definition try_except {P A} (m : M P A) (h : exn -> M P A) : M P A :=
  fun s =>
    match m s with
    | (Ok a, s') => (Ok a, s')
    | (Raise e, s') => h e s'
    end.

Definition lift {P A} (o : outcome A) : M P A := fun s => (o, s).

Declare Scope py_scope.
Delimit Scope py_scope with py.
Notation "x <- m ;; k" := (bind m (fun x => k))
  (at level 61, m at next level, right associativity) : py_scope.
Notation "m ;; k" := (bind m (fun _ => k))
  (at level 61, right associativity) : py_scope.
Local Open Scope py_scope.

Definition get_self {P} : M P P := fun s => (Ok (self s), s).

Definition modify_self {P} (f : P -> P) : M P unit :=
  fun s => (Ok tt, {| self := f (self s); world := world s |}).

Definition get_env {P} : M P Env := fun s => (Ok (env (world s)), s).

(** One call of an oracle: read at the current tick, then advance. *)
Definition ask {P A} (oracle : Env -> nat -> A) : M P A :=
  fun s =>
    let w := world s in
    (Ok (oracle (env w) (tick w)),
     {| self := self s;
        world := {| env := env w; tick := S (tick w); stdout := stdout w |} |}).

(** [print(json.dumps(v))] *)
Definition print {P} (v : pyval) : M P unit :=
  fun s =>
    let w := world s in
    (Ok tt,
     {| self := self s;
        world := {| env := env w; tick := tick w; stdout := stdout w ++ [v] |} |}).

(** [datetime.now()] *)
Definition datetime_now {P} : M P Z := ask clock.

(* ================================================================== *)
(** ** Builtins *)

(** [str(v)] as an f-string interpolates it. *)
Definition py_str (E : Env) (v : pyval) : string :=
  match v with
  | PNone => "None"
  | PBool true => "True"
  | PBool false => "False"
  | PInt z => str_of_Z z
  | PStr s => s
  | _ => repr_other E v
  end.

(** [float(v)] *)
Definition py_float (E : Env) (v : pyval) : outcome float :=
  match v with
  | PFloat f => Ok f
  | PInt z =>
      match PyFloat.of_Z z with
      | S754_infinity _ => Raise (Exn OverflowError "int too large to convert to float")
      | f => Ok f
      end
  | PBool b => Ok (if b then PyFloat.f1 else PyFloat.f0)
  | PStr s =>
      match float_of_str E s with
      | Some f => Ok f
      | None => Raise (Exn ValueError ("could not convert string to float: " ++ quote s))
      end
  | _ => Raise (Exn TypeError
                  ("float() argument must be a string or a real number, not "
                     ++ quote (type_name v)))
  end.

(** [int(v)] *)
Definition py_int (E : Env) (v : pyval) : outcome Z :=
  match v with
  | PInt z => Ok z
  | PBool b => Ok (if b then 1 else 0)
  | PFloat f =>
      match f with
      | S754_nan => Raise (Exn ValueError "cannot convert float NaN to integer")
      | S754_infinity _ => Raise (Exn OverflowError "cannot convert float infinity to integer")
      | _ => match PyFloat.trunc f with
             | Some z => Ok z
             | None => Raise (Exn ValueError "cannot convert float NaN to integer")
             end
      end
  | PStr s =>
      match int_of_str E s with
      | Some z => Ok z
      | None => Raise (Exn ValueError
                         ("invalid literal for int() with base 10: " ++ quote s))
      end
  | _ => Raise (Exn TypeError
                  ("int() argument must be a string, a bytes-like object or a real number, not "
                     ++ quote (type_name v)))
  end.

(** [len(v)] *)
Definition py_len (v : pyval) : outcome Z :=
  match v with
  | PStr s => Ok (Z.of_nat (String.length s))
  | PList l => Ok (Z.of_nat (List.length l))
  | PDict d => Ok (Z.of_nat (List.length d))
  | _ => Raise (Exn TypeError
                  ("object of type " ++ quote (type_name v) ++ " has no len()"))
  end.

(** [v.get(k, dflt)]: only a dict has [get]. *)
Definition py_get (v : pyval) (k : string) (dflt : pyval) : outcome pyval :=
  match v with
  | PDict d => Ok (dict_get d k dflt)
  | _ => Raise (no_attribute v "get")
  end.

(** [v[k]] for a str key. *)
Definition py_getitem (v : pyval) (k : string) : outcome pyval :=
  match v with
  | PDict d =>
      match dict_find d k with
      | Some x => Ok x
      | None => Raise (key_error k)
      end
  | _ => Raise (bad_subscript v)
  end.

(** [sub in s] for two strs. *)
Fixpoint is_substring (sub s : string) : bool :=
  String.prefix sub s
  || match s with
     | EmptyString => false
     | String _ s' => is_substring sub s'
     end.

(** [name in v] for a str [name]. *)
Definition py_contains (v : pyval) (name : string) : outcome bool :=
  match v with
  | PList l => Ok (existsb (fun x => eq_str x name) l)
  | PDict d => Ok (dict_has d name)
  | PStr s => Ok (is_substring name s)
  | _ => Raise (Exn TypeError
                  ("argument of type " ++ quote (type_name v) ++ " is not iterable"))
  end.

(** [" ".join(words)] *)
Definition join_spaces (words : list string) : string := String.concat " " words.

(** [s.lower()] on the ASCII letters. *)
Definition lower_char (c : ascii) : ascii :=
  let n := nat_of_ascii c in
  if (Nat.leb 65 n && Nat.leb n 90)%bool then ascii_of_nat (n + 32) else c.

Fixpoint lower (s : string) : string :=
  match s with
  | EmptyString => EmptyString
  | String c s' => String (lower_char c) (lower s')
  end.

(** Whitespace as [str.strip()] sees it, on the code points below 256. *)
Definition is_space (c : ascii) : bool :=
  let n := nat_of_ascii c in
  ((Nat.leb 9 n && Nat.leb n 13) || (Nat.leb 28 n && Nat.leb n 32)
   || Nat.eqb n 133 || Nat.eqb n 160)%bool.

Fixpoint lstrip (s : string) : string :=
  match s with
  | EmptyString => EmptyString
  | String c s' => if is_space c then lstrip s' else s
  end.

(** Drops the trailing whitespace: a character stays when it is not a space
    or when something stays after it. *)
Fixpoint rstrip (s : string) : string :=
  match s with
  | EmptyString => EmptyString
  | String c s' =>
      match rstrip s' with
      | EmptyString => if is_space c then EmptyString else String c EmptyString
      | r => String c r
      end
  end.

(** [s.strip()] *)
Definition strip (s : string) : string := rstrip (lstrip s).

(* ================================================================== *)
(** ** The dispatch loop, shared by the two [main] functions

    The two [main] functions are the same text up to the table that maps an
    action name to a method call; [dispatch] is that table. *)

Section MainLoop.

Context {P : Type}.

(** The [if action == ... elif ... else] chain: given the action and the
    command, fills in the response. *)
Variable dispatch : pyval -> pyval -> dict -> M P dict.

(** The body of the outer [try] once a non-blank line was read.  The inner
    [try] catches [json.JSONDecodeError] alone; whatever else [json.loads]
    raises goes to the handler of the loop. *)
Definition handle_line (line : string) : M P unit :=
  E <- get_env ;;
  match json_loads E line with
  | Raise e =>
      match exn_kind_of e with
      | JSONDecodeError => print (PDict [("error", PStr "Invalid JSON command")])
      | _ => raise e
      end
  | Ok command =>
      action <- lift (py_get command "action" PNone) ;;
      let response := [("action", action); ("success", PBool false)] in
      response <- dispatch action command response ;;
      print (PDict response)
  end.

(** [except Exception as e] of the loop. *)
Definition plugin_error (e : exn) : M P unit :=
  print (PDict [("error", PStr ("Plugin error: " ++ exn_str e))]).

(** [while True].  [stdin] holds the outcomes of the calls of
    [sys.stdin.readline()] in turn: a line, terminator included, or the
    exception the call raises (a [UnicodeDecodeError] on input that is not
    text); once it is used up [readline] returns the empty string.  A call
    that raises does so inside the [try] of the loop.  These are the calls,
    not the lines of the byte stream: what the reader had buffered when a
    call raised can be gone, and is then in no later outcome. *)
Fixpoint main_loop (stdin : list (exn + string)) : M P unit :=
  match stdin with
  | [] => ret tt
  | inl e :: rest =>
      plugin_error e ;;
      main_loop rest
  | inr l :: rest =>
      let line := strip l in
      if String.eqb line "" then ret tt
      else
        try_except (handle_line line) plugin_error ;;
        main_loop rest
  end.

(** The [else] branch of the chain. *)
Definition unknown_action (action : pyval) (response : dict) : M P dict :=
  E <- get_env ;;
  ret (dict_set response "error" (PStr ("Unknown action: " ++ py_str E action))).

End MainLoop.

Definition fresh_world (E : Env) : World :=
  {| env := E; tick := 0%nat; stdout := [] |}.

(* ================================================================== *)
(** ** cpu_monitor.py *)

Module CPUMonitor.

Record Plugin : Type := {
  config : pyval;
  threshold : float;
  interval : Z;
  running : bool;
  status : string;
  start_time : option Z
}.

(** [__init__] *)
Definition init : Plugin :=
  {| config := PDict []; threshold := PyFloat.f80; interval := 30;
     running := false; status := "stopped"; start_time := None |}.

Definition set_config v p :=
  {| config := v; threshold := threshold p; interval := interval p;
     running := running p; status := status p; start_time := start_time p |}.
Definition set_threshold f p :=
  {| config := config p; threshold := f; interval := interval p;
     running := running p; status := status p; start_time := start_time p |}.
Definition set_interval n p :=
  {| config := config p; threshold := threshold p; interval := n;
     running := running p; status := status p; start_time := start_time p |}.
Definition set_running b p :=
  {| config := config p; threshold := threshold p; interval := interval p;
     running := b; status := status p; start_time := start_time p |}.
Definition set_status s p :=
  {| config := config p; threshold := threshold p; interval := interval p;
     running := running p; status := s; start_time := start_time p |}.
Definition set_start_time t p :=
  {| config := config p; threshold := threshold p; interval := interval p;
     running := running p; status := status p; start_time := t |}.

Definition get_info : M Plugin pyval :=
  created <- datetime_now ;;
  updated <- datetime_now ;;
  ret (PDict
    [("id", PStr "cpu-monitor");
     ("name", PStr "CPU Monitor");
     ("description",
       PStr "Monitors CPU usage and triggers alerts when threshold is exceeded");
     ("version", PStr "1.0.0");
     ("author", PStr "Stavily Team");
     ("license", PStr "MIT");
     ("type", PStr "trigger");
     ("tags", PList [PStr "system"; PStr "monitoring"; PStr "cpu"]);
     ("categories", PList [PStr "system-monitoring"]);
     ("created_at", PIsoTime created);
     ("updated_at", PIsoTime updated)]).

(** [0 <= self.threshold <= 100] *)
Definition threshold_in_range (f : float) : bool :=
  PyFloat.leb PyFloat.f0 f && PyFloat.leb f PyFloat.f100.

Definition initialize (cfg : pyval) : M Plugin bool :=
  try_except
    (modify_self (set_config cfg) ;;
     E <- get_env ;;
     t <- lift (py_get cfg "threshold" (PFloat PyFloat.f80)) ;;
     f <- lift (py_float E t) ;;
     modify_self (set_threshold f) ;;
     i <- lift (py_get cfg "interval" (PInt 30)) ;;
     n <- lift (py_int E i) ;;
     modify_self (set_interval n) ;;
     p <- get_self ;;
     if negb (threshold_in_range (threshold p)) then
       raise (Exn ValueError "Threshold must be between 0 and 100")
     else if interval p <? 1 then
       raise (Exn ValueError "Interval must be at least 1 second")
     else
       modify_self (set_status "initialized") ;;
       ret true)
    (fun _ =>
       modify_self (set_status "error") ;;
       ret false).

Definition start : M Plugin bool :=
  p <- get_self ;;
  if running p then ret true
  else
    modify_self (set_running true) ;;
    modify_self (set_status "running") ;;
    now <- datetime_now ;;
    modify_self (set_start_time (Some now)) ;;
    ret true.

Definition stop : M Plugin bool :=
  modify_self (set_running false) ;;
  modify_self (set_status "stopped") ;;
  ret true.

Definition get_status : M Plugin string :=
  p <- get_self ;;
  ret (status p).

(** [_get_cpu_usage] *)
Definition _get_cpu_usage : M Plugin float :=
  r <- ask cpu_percent ;;
  match r with
  | inl e => raise e
  | inr v => ret v
  end.

Definition get_health : M Plugin pyval :=
  p <- get_self ;;
  last_check <- datetime_now ;;
  usage <- _get_cpu_usage ;;
  let health :=
    [("status", PStr (if running p then "healthy" else "unhealthy"));
     ("message", PStr (if running p then "Plugin is running normally"
                       else "Plugin is not running"));
     ("last_check", PIsoTime last_check);
     ("uptime", PInt 0);
     ("error_count", PInt 0);
     ("metrics", PDict [("current_cpu_usage", PFloat usage);
                        ("threshold", PFloat (threshold p))])] in
  match start_time p with
  | Some t0 =>
      now <- datetime_now ;;
      ret (PDict (dict_set health "uptime" (PSeconds (now - t0))))
  | None => ret (PDict health)
  end.

Definition opt_int (o : option Z) : pyval :=
  match o with Some z => PInt z | None => PNone end.

Definition load_average (o : option (float * float * float)) : pyval :=
  match o with
  | Some (a, b, c) => PList [PFloat a; PFloat b; PFloat c]
  | None => PNone
  end.

(** [psutil.cpu_count()], [os.getloadavg()] and [os.uname()], as the event
    literal calls them: either of them can raise. *)
Definition _probe_host : M Plugin host_facts :=
  r <- ask host_probe ;;
  match r with
  | inl e => raise e
  | inr facts => ret facts
  end.

Definition detect_triggers : M Plugin pyval :=
  p <- get_self ;;
  if negb (running p) then ret PNone
  else
    try_except
      (cpu_usage <- _get_cpu_usage ;;
       if PyFloat.ltb (threshold p) cpu_usage then
         E <- get_env ;;
         secs <- ask unix_time ;;
         now <- datetime_now ;;
         facts <- _probe_host ;;
         ret (PDict
           [("id", PStr ("cpu-high-" ++ str_of_Z secs));
            ("type", PStr "cpu.high");
            ("source", PStr "cpu-monitor");
            ("timestamp", PIsoTime now);
            ("data", PDict
               [("cpu_usage", PFloat cpu_usage);
                ("threshold", PFloat (threshold p));
                ("cpu_count", opt_int (cpu_count facts));
                ("load_average", load_average (loadavg facts))]);
            ("metadata", PDict
               [("plugin_id", PStr "cpu-monitor");
                ("plugin_version", PStr "1.0.0");
                ("hostname", PStr (nodename E))]);
            ("tags", PList [PStr "system"; PStr "cpu"; PStr "alert"]);
            ("severity",
              PStr (if PyFloat.ltb PyFloat.f90 cpu_usage then "high" else "medium"))])
       else ret PNone)
      (fun _ => ret PNone).

Definition get_trigger_config : M Plugin pyval :=
  ret (PDict
    [("schema", PDict
       [("threshold", PDict
          [("type", PStr "number");
           ("description", PStr "CPU usage threshold percentage (0-100)");
           ("default", PFloat PyFloat.f80);
           ("required", PBool false);
           ("minimum", PFloat PyFloat.f0);
           ("maximum", PFloat PyFloat.f100)]);
        ("interval", PDict
          [("type", PStr "integer");
           ("description", PStr "Monitoring interval in seconds");
           ("default", PInt 30);
           ("required", PBool false);
           ("minimum", PInt 1);
           ("examples", PList [PInt 30; PInt 60; PInt 300])])]);
     ("required", PList []);
     ("examples", PList
        [PDict [("threshold", PFloat PyFloat.f85); ("interval", PInt 30)];
         PDict [("threshold", PFloat PyFloat.f90); ("interval", PInt 60)]]);
     ("description", PStr "CPU monitoring configuration")]).

(** With [response["data"] = v] and [response["success"] = True]. *)
Definition with_data (response : dict) (v : pyval) : dict :=
  dict_set (dict_set response "data" v) "success" (PBool true).

Definition with_success (response : dict) (b : bool) : dict :=
  dict_set response "success" (PBool b).

Definition dispatch (action command : pyval) (response : dict) : M Plugin dict :=
  if eq_str action "get_info" then
    v <- get_info ;; ret (with_data response v)
  else if eq_str action "initialize" then
    cfg <- lift (py_get command "config" (PDict [])) ;;
    b <- initialize cfg ;; ret (with_success response b)
  else if eq_str action "start" then
    b <- start ;; ret (with_success response b)
  else if eq_str action "stop" then
    b <- stop ;; ret (with_success response b)
  else if eq_str action "get_status" then
    s <- get_status ;; ret (with_data response (PStr s))
  else if eq_str action "get_health" then
    v <- get_health ;; ret (with_data response v)
  else if eq_str action "detect_triggers" then
    v <- detect_triggers ;; ret (with_data response v)
  else if eq_str action "get_trigger_config" then
    v <- get_trigger_config ;; ret (with_data response v)
  else unknown_action action response.

Definition boot (E : Env) : Sys Plugin :=
  {| self := init; world := fresh_world E |}.

(** [main()] on the input [stdin]: the final state, whose world holds the
    lines printed. *)
Definition main (E : Env) (stdin : list (exn + string)) : Sys Plugin :=
  snd (main_loop dispatch stdin (boot E)).

End CPUMonitor.

(* ================================================================== *)
(** ** service_restart.py *)

Module ServiceRestart.

Record Plugin : Type := {
  config : pyval;
  running : bool;
  status : string;
  start_time : option Z;
  allowed_services : pyval;
  service_manager : pyval
}.

(** [__init__] *)
Definition init : Plugin :=
  {| config := PDict []; running := false; status := "stopped";
     start_time := None; allowed_services := PList [];
     service_manager := PStr "systemctl" |}.

Definition set_config v p :=
  {| config := v; running := running p; status := status p;
     start_time := start_time p; allowed_services := allowed_services p;
     service_manager := service_manager p |}.
Definition set_running b p :=
  {| config := config p; running := b; status := status p;
     start_time := start_time p; allowed_services := allowed_services p;
     service_manager := service_manager p |}.
Definition set_status s p :=
  {| config := config p; running := running p; status := s;
     start_time := start_time p; allowed_services := allowed_services p;
     service_manager := service_manager p |}.
Definition set_start_time t p :=
  {| config := config p; running := running p; status := status p;
     start_time := t; allowed_services := allowed_services p;
     service_manager := service_manager p |}.
Definition set_allowed_services v p :=
  {| config := config p; running := running p; status := status p;
     start_time := start_time p; allowed_services := v;
     service_manager := service_manager p |}.
Definition set_service_manager v p :=
  {| config := config p; running := running p; status := status p;
     start_time := start_time p; allowed_services := allowed_services p;
     service_manager := v |}.

Definition managers : list string := ["systemctl"; "service"; "docker"].

Definition get_info : M Plugin pyval :=
  created <- datetime_now ;;
  updated <- datetime_now ;;
  ret (PDict
    [("id", PStr "service-restart");
     ("name", PStr "Service Restart");
     ("description",
       PStr "Restarts system services using systemctl or other service managers");
     ("version", PStr "1.0.0");
     ("author", PStr "Stavily Team");
     ("license", PStr "MIT");
     ("type", PStr "action");
     ("tags", PList [PStr "system"; PStr "service"; PStr "restart"]);
     ("categories", PList [PStr "system-management"]);
     ("created_at", PIsoTime created);
     ("updated_at", PIsoTime updated)]).

(** [repr] of a list of plain words, for the text of an exception. *)
Definition repr_words (words : list string) : string :=
  "[" ++ String.concat ", " (map quote words) ++ "]".

(** [subprocess.run(cmd, ..., check=check)] *)
Definition run (cmd : list string) (check : bool) : M Plugin completed :=
  r <- ask (fun E k => subprocess_run E k cmd) ;;
  match r with
  | inl e => raise e
  | inr c =>
      if check && negb (returncode c =? 0) then
        raise (Exn CalledProcessError
                 ("Command " ++ quote (repr_words cmd)
                    ++ " returned non-zero exit status "
                    ++ str_of_Z (returncode c) ++ "."))
      else ret c
  end.

Definition process_failure (k : exn_kind) : bool :=
  match k with
  | CalledProcessError | TimeoutExpired | FileNotFoundError => true
  | _ => false
  end.

Definition _check_service_manager : M Plugin bool :=
  p <- get_self ;;
  let sm := service_manager p in
  try_except
    ((if eq_str sm "systemctl" then
        run ["systemctl"; "--version"] true ;; ret tt
      else if eq_str sm "service" then
        run ["service"; "--version"] false ;; ret tt
      else if eq_str sm "docker" then
        run ["docker"; "--version"] true ;; ret tt
      else ret tt) ;;
     ret true)
    (fun e => if process_failure (exn_kind_of e) then ret false else raise e).

Definition initialize (cfg : pyval) : M Plugin bool :=
  try_except
    (modify_self (set_config cfg) ;;
     E <- get_env ;;
     a <- lift (py_get cfg "allowed_services" (PList [])) ;;
     modify_self (set_allowed_services a) ;;
     m <- lift (py_get cfg "service_manager" (PStr "systemctl")) ;;
     modify_self (set_service_manager m) ;;
     p <- get_self ;;
     if negb (in_strs (service_manager p) managers) then
       raise (Exn ValueError
                ("Unsupported service manager: " ++ py_str E (service_manager p)))
     else
       available <- _check_service_manager ;;
       if negb available then
         raise (Exn RuntimeError
                  ("Service manager " ++ quote (py_str E (service_manager p))
                     ++ " not available"))
       else
         modify_self (set_status "initialized") ;;
         ret true)
    (fun _ =>
       modify_self (set_status "error") ;;
       ret false).

Definition start : M Plugin bool :=
  p <- get_self ;;
  if running p then ret true
  else
    modify_self (set_running true) ;;
    modify_self (set_status "running") ;;
    now <- datetime_now ;;
    modify_self (set_start_time (Some now)) ;;
    ret true.

Definition stop : M Plugin bool :=
  modify_self (set_running false) ;;
  modify_self (set_status "stopped") ;;
  ret true.

Definition get_status : M Plugin string :=
  p <- get_self ;;
  ret (status p).

Definition get_health : M Plugin pyval :=
  p <- get_self ;;
  last_check <- datetime_now ;;
  count <- lift (py_len (allowed_services p)) ;;
  let health :=
    [("status", PStr (if running p then "healthy" else "unhealthy"));
     ("message", PStr (if running p then "Plugin is running normally"
                       else "Plugin is not running"));
     ("last_check", PIsoTime last_check);
     ("uptime", PInt 0);
     ("error_count", PInt 0);
     ("metrics", PDict [("service_manager", service_manager p);
                        ("allowed_services_count", PInt count)])] in
  match start_time p with
  | Some t0 =>
      now <- datetime_now ;;
      ret (PDict (dict_set health "uptime" (PSeconds (now - t0))))
  | None => ret (PDict health)
  end.

(** [_create_error_result] *)
Definition _create_error_result (action_id : pyval) (error : string)
    (start_time : option Z) : M Plugin pyval :=
  started <- match start_time with
             | Some t => ret t
             | None => datetime_now
             end ;;
  completed <- datetime_now ;;
  now <- datetime_now ;;
  ret (PDict
    [("id", action_id);
     ("status", PStr "failed");
     ("error", PStr error);
     ("started_at", PIsoTime started);
     ("completed_at", PIsoTime completed);
     ("duration", PSeconds (now - started));
     ("metadata", PDict [("plugin_id", PStr "service-restart");
                         ("plugin_version", PStr "1.0.0")])]).

(** The character class [[a-zA-Z0-9._-]]. *)
Definition name_char (c : ascii) : bool :=
  let n := nat_of_ascii c in
  ((Nat.leb 97 n && Nat.leb n 122) || (Nat.leb 65 n && Nat.leb n 90)
   || (Nat.leb 48 n && Nat.leb n 57)
   || Nat.eqb n 46 || Nat.eqb n 95 || Nat.eqb n 45)%bool.

(** After the first character: more of the class, then the end of the
    string, which [$] also finds just before one final newline. *)
Fixpoint name_rest (s : string) : bool :=
  match s with
  | EmptyString => true
  | String c s' =>
      if name_char c then name_rest s'
      else (Nat.eqb (nat_of_ascii c) 10 && String.eqb s' "")%bool
  end.

(** [re.match(r'^[a-zA-Z0-9._-]+$', name)] found a match. *)
Definition matches_pattern (s : string) : bool :=
  match s with
  | EmptyString => false
  | String c s' => name_char c && name_rest s'
  end.

(** [_is_valid_service_name]: [re.match] wants a str. *)
Definition _is_valid_service_name (name : pyval) : M Plugin bool :=
  match name with
  | PStr s => ret (matches_pattern s && Nat.leb (String.length s) 100)
  | _ => raise (Exn TypeError
                  ("expected string or bytes-like object, got "
                     ++ quote (type_name name)))
  end.

(** The dict [_execute_restart_command] returns, with its four fixed keys. *)
Record command_result : Type := {
  success : bool;
  error : string;
  command : string;
  output : string
}.

Definition simulated_services : list string :=
  ["nginx"; "apache2"; "mysql"; "postgresql"; "redis"; "docker"].

(** [time.sleep(1)]: time passes. *)
Definition sleep : M Plugin unit := ask (fun _ _ => tt).

Definition _simulate_restart_command (cmd : list string) (service_name : string)
    : M Plugin command_result :=
  sleep ;;
  if existsb (String.eqb service_name) simulated_services then
    ret {| success := true; error := "";
           command := join_spaces cmd;
           output := "Service " ++ service_name
                       ++ " restarted successfully (simulated)" |}
  else
    ret {| success := false;
           error := "Service " ++ service_name ++ " not found (simulated)";
           command := join_spaces cmd; output := "" |}.

Definition demo_mode (E : Env) : bool :=
  let v := match demo_mode_var E with Some s => s | None => "true" end in
  String.eqb (lower v) "true".

Definition _execute_restart_command (service_name : string) (method : pyval)
    : M Plugin command_result :=
  E <- get_env ;;
  let build : option (list string) :=
    if eq_str method "systemctl" then Some ["systemctl"; "restart"; service_name]
    else if eq_str method "service" then Some ["service"; service_name; "restart"]
    else if eq_str method "docker" then Some ["docker"; "restart"; service_name]
    else None in
  match build with
  | None =>
      ret {| success := false;
             error := "Unsupported method: " ++ py_str E method;
             command := ""; output := "" |}
  | Some cmd =>
      try_except
        (if demo_mode E then _simulate_restart_command cmd service_name
         else
           r <- run cmd false ;;
           ret {| success := returncode r =? 0;
                  error := if negb (returncode r =? 0) then proc_stderr r else "";
                  command := join_spaces cmd;
                  output := proc_stdout r |})
        (fun e =>
           match exn_kind_of e with
           | TimeoutExpired =>
               ret {| success := false; error := "Command timed out";
                      command := join_spaces cmd; output := "" |}
           | _ =>
               ret {| success := false; error := exn_str e;
                      command := join_spaces cmd; output := "" |}
           end)
  end.

(** How the [try] block of [execute_action] ends: with a [return], or by
    running off its end with the result built so far. *)
Inductive flow : Type :=
| Return (v : pyval)
| Continue (result : dict).

Definition attempt (p : Plugin) (action_id parameters : pyval)
    (start_time : Z) (result : dict) : M Plugin flow :=
  E <- get_env ;;
  service_name <- lift (py_get parameters "service_name" PNone) ;;
  if negb (truthy service_name) then
    r <- _create_error_result action_id "service_name parameter is required"
           (Some start_time) ;;
    ret (Return r)
  else
    valid <- _is_valid_service_name service_name ;;
    if negb valid then
      r <- _create_error_result action_id
             ("Invalid service name: " ++ py_str E service_name)
             (Some start_time) ;;
      ret (Return r)
    else
      let name := py_str E service_name in
      listed <- (if truthy (allowed_services p)
                 then lift (py_contains (allowed_services p) name)
                 else ret true) ;;
      if negb listed then
        r <- _create_error_result action_id
               ("Service " ++ quote name ++ " is not in allowed list")
               (Some start_time) ;;
        ret (Return r)
      else
        method <- lift (py_get parameters "method" (service_manager p)) ;;
        if negb (in_strs method managers) then
          r <- _create_error_result action_id
                 ("Unsupported method: " ++ py_str E method)
                 (Some start_time) ;;
          ret (Return r)
        else
          cr <- _execute_restart_command name method ;;
          if success cr then
            ret (Continue (dict_update result
              [("status", PStr "completed");
               ("data", PDict
                  [("service_name", service_name);
                   ("method", method);
                   ("command", PStr (command cr));
                   ("output", PStr (output cr));
                   ("success", PBool true)])]))
          else
            ret (Continue (dict_update result
              [("status", PStr "failed");
               ("error", PStr (error cr));
               ("data", PDict
                  [("service_name", service_name);
                   ("method", method);
                   ("command", PStr (command cr));
                   ("output", PStr (output cr))])])).

Definition execute_action (action_request : pyval) : M Plugin pyval :=
  p <- get_self ;;
  if negb (running p) then
    action_id <- lift (py_getitem action_request "id") ;;
    _create_error_result action_id "Plugin is not running" None
  else
    start_time <- datetime_now ;;
    action_id <- lift (py_getitem action_request "id") ;;
    parameters <- lift (py_get action_request "parameters" (PDict [])) ;;
    E <- get_env ;;
    let result :=
      [("id", action_id);
       ("status", PStr "running");
       ("started_at", PIsoTime start_time);
       ("metadata", PDict [("plugin_id", PStr "service-restart");
                           ("plugin_version", PStr "1.0.0");
                           ("execution_host", PStr (nodename E))])] in
    fl <- try_except
            (attempt p action_id parameters start_time result)
            (fun e =>
               ret (Continue (dict_update result
                 [("status", PStr "failed"); ("error", PStr (exn_str e))]))) ;;
    match fl with
    | Return v => ret v
    | Continue result =>
        completed <- datetime_now ;;
        now <- datetime_now ;;
        ret (PDict (dict_update result
          [("completed_at", PIsoTime completed);
           ("duration", PSeconds (now - start_time))]))
    end.

Definition get_action_config : M Plugin pyval :=
  ret (PDict
    [("schema", PDict
       [("service_name", PDict
          [("type", PStr "string");
           ("description", PStr "Name of the service to restart");
           ("required", PBool true);
           ("min_length", PInt 1);
           ("max_length", PInt 100);
           ("examples", PList [PStr "nginx"; PStr "apache2"; PStr "mysql";
                               PStr "postgresql"])]);
        ("method", PDict
          [("type", PStr "string");
           ("description", PStr "Method to use for restarting the service");
           ("default", PStr "systemctl");
           ("required", PBool false);
           ("enum", PList [PStr "systemctl"; PStr "service"; PStr "docker"]);
           ("examples", PList [PStr "systemctl"; PStr "service"; PStr "docker"])]);
        ("wait_for_status", PDict
          [("type", PStr "boolean");
           ("description", PStr "Wait for service to be active after restart");
           ("default", PBool true);
           ("required", PBool false)]);
        ("timeout", PDict
          [("type", PStr "integer");
           ("description", PStr "Timeout in seconds for the restart operation");
           ("default", PInt 30);
           ("minimum", PInt 5);
           ("maximum", PInt 300)])]);
     ("required", PList [PStr "service_name"]);
     ("examples", PList
        [PDict [("service_name", PStr "nginx"); ("method", PStr "systemctl");
                ("wait_for_status", PBool true)];
         PDict [("service_name", PStr "web-app"); ("method", PStr "docker");
                ("timeout", PInt 60)]]);
     ("description", PStr "Service restart configuration");
     ("timeout", PInt 300)]).

Definition with_data (response : dict) (v : pyval) : dict :=
  dict_set (dict_set response "data" v) "success" (PBool true).

Definition with_success (response : dict) (b : bool) : dict :=
  dict_set response "success" (PBool b).

Definition dispatch (action command : pyval) (response : dict) : M Plugin dict :=
  if eq_str action "get_info" then
    v <- get_info ;; ret (with_data response v)
  else if eq_str action "initialize" then
    cfg <- lift (py_get command "config" (PDict [])) ;;
    b <- initialize cfg ;; ret (with_success response b)
  else if eq_str action "start" then
    b <- start ;; ret (with_success response b)
  else if eq_str action "stop" then
    b <- stop ;; ret (with_success response b)
  else if eq_str action "get_status" then
    s <- get_status ;; ret (with_data response (PStr s))
  else if eq_str action "get_health" then
    v <- get_health ;; ret (with_data response v)
  else if eq_str action "execute_action" then
    action_request <- lift (py_get command "action_request" (PDict [])) ;;
    v <- execute_action action_request ;; ret (with_data response v)
  else if eq_str action "get_action_config" then
    v <- get_action_config ;; ret (with_data response v)
  else unknown_action action response.

Definition boot (E : Env) : Sys Plugin :=
  {| self := init; world := fresh_world E |}.

Definition main (E : Env) (stdin : list (exn + string)) : Sys Plugin :=
  snd (main_loop dispatch stdin (boot E)).

End ServiceRestart.

(* ================================================================== *)
(** ** A concrete environment, for running the model *)

Module Demo.

Definition dq : string := String (ascii_of_nat 34) EmptyString.
Definition backslash : ascii := ascii_of_nat 92.
Definition newline : string := String (ascii_of_nat 10) EmptyString.

(** The text of the command that has the action [name] and nothing else,
    as one input line. *)
Definition command_line (name : string) : string :=
  "{" ++ dq ++ "action" ++ dq ++ ": " ++ dq ++ name ++ dq ++ "}" ++ newline.

Fixpoint plain (s : string) : bool :=
  match s with
  | EmptyString => true
  | String c s' =>
      negb (Ascii.eqb c (ascii_of_nat 34)) && negb (Ascii.eqb c backslash)
      && Nat.leb 32 (nat_of_ascii c) && plain s'
  end.

(** What [json.loads] raises on a text that is no JSON document. *)
Definition decode_error : exn :=
  Exn JSONDecodeError "Expecting value: line 1 column 1 (char 0)".

(** An integer literal of [n] digits, and what [json.loads] raises on one
    of 4301 digits. *)
Fixpoint digits (n : nat) : string :=
  match n with
  | O => EmptyString
  | S n' => String "1" (digits n')
  end.

Definition too_many_digits : exn :=
  Exn ValueError
      "Exceeds the limit (4300 digits) for integer string conversion: value has 4301 digits; use sys.set_int_max_str_digits() to increase the limit".

(** What [readline] raises on bytes that are not UTF-8. *)
Definition not_text : exn :=
  Exn UnicodeDecodeError
      "'utf-8' codec can't decode byte 0xff in position 0: invalid start byte".

(** [json.loads] on the lines of the shape above, and on no others. *)
Definition loads (line : string) : outcome pyval :=
  let head := "{" ++ dq ++ "action" ++ dq ++ ": " ++ dq in
  let tail := dq ++ "}" in
  let n := String.length line in
  let h := String.length head in
  if String.prefix head line && Nat.leb (h + 2) n then
    let name := String.substring h (n - h - 2) line in
    if String.eqb (String.substring (n - 2) 2 line) tail && plain name
    then Ok (PDict [("action", PStr name)])
    else Raise decode_error
  else Raise decode_error.

(** The clock advances by one second per call, the sensor always reads
    95.0, the host has four processors and no [os.getloadavg], every
    process exits with status 0. *)
Definition E : Env :=
  {| clock := fun k => 1000000 * Z.of_nat k;
     unix_time := fun _ => 1700000000;
     cpu_percent := fun _ => inr PyFloat.f95;
     host_probe := fun _ => inr {| cpu_count := Some 4; loadavg := None |};
     nodename := "host";
     demo_mode_var := None;
     subprocess_run := fun _ _ => inr (Completed 0 "" "");
     json_loads := loads;
     float_of_str := fun _ => None;
     int_of_str := fun _ => None;
     repr_other := fun _ => "" |}.

(** [E] with another [json.loads]. *)
Definition with_json (f : string -> outcome pyval) : Env :=
  {| clock := clock E; unix_time := unix_time E;
     cpu_percent := cpu_percent E; host_probe := host_probe E;
     nodename := nodename E;
     demo_mode_var := demo_mode_var E;
     subprocess_run := subprocess_run E;
     json_loads := f;
     float_of_str := float_of_str E; int_of_str := int_of_str E;
     repr_other := repr_other E |}.

(** [E] with a sensor that fails. *)
Definition broken_sensor : Env :=
  {| clock := clock E; unix_time := unix_time E;
     cpu_percent := fun _ => inl (Exn OtherError "sensor unavailable");
     host_probe := host_probe E; nodename := nodename E;
     demo_mode_var := demo_mode_var E;
     subprocess_run := subprocess_run E;
     json_loads := json_loads E;
     float_of_str := float_of_str E; int_of_str := int_of_str E;
     repr_other := repr_other E |}.

(** [E] on a host where [os.getloadavg()] cannot obtain the load average. *)
Definition no_load_average : Env :=
  {| clock := clock E; unix_time := unix_time E;
     cpu_percent := cpu_percent E;
     host_probe :=
       fun _ => inl (Exn OSError "unable to obtain load average");
     nodename := nodename E;
     demo_mode_var := demo_mode_var E;
     subprocess_run := subprocess_run E;
     json_loads := json_loads E;
     float_of_str := float_of_str E; int_of_str := int_of_str E;
     repr_other := repr_other E |}.


(** [E] with STAVILY_DEMO_MODE=false and processes that time out. *)
Definition real_mode : Env :=
  {| clock := clock E; unix_time := unix_time E;
     cpu_percent := cpu_percent E; host_probe := host_probe E;
     nodename := nodename E;
     demo_mode_var := Some "false";
     subprocess_run :=
       fun _ _ => inl (Exn TimeoutExpired "timed out after 30 seconds");
     json_loads := json_loads E;
     float_of_str := float_of_str E; int_of_str := int_of_str E;
     repr_other := repr_other E |}.

(** A request to restart nginx, and a configuration that allows nothing
    else. *)
Definition nginx_request : dict :=
  [("id", PStr "a1"); ("parameters", PDict [("service_name", PStr "nginx")])].


End Demo.

(* ================================================================== *)
(** * The vocabulary of the properties *)

(** ** Reading the results *)

(** The value under key [k] of a result that is a dict. *)
Definition field (v : pyval) (k : string) : option pyval :=
  match v with
  | PDict d => dict_find d k
  | _ => None
  end.

(** A result without the keys [ks]. *)
Definition without (ks : list string) (v : pyval) : pyval :=
  match v with
  | PDict d => PDict (filter (fun kv => negb (existsb (String.eqb (fst kv)) ks)) d)
  | _ => v
  end.

Definition stamps : list string := ["created_at"; "updated_at"].

(** ** Plugin instances

    A plugin instance is what a sequence of method calls makes of a freshly
    constructed plugin object. *)

Inductive cpu_call : Type :=
| CpuGetInfo
| CpuInitialize (cfg : pyval)
| CpuStart
| CpuStop
| CpuGetStatus
| CpuGetHealth
| CpuDetectTriggers
| CpuGetTriggerConfig.

Definition cpu_step (s : Sys CPUMonitor.Plugin) (c : cpu_call)
    : Sys CPUMonitor.Plugin :=
  match c with
  | CpuGetInfo => snd (CPUMonitor.get_info s)
  | CpuInitialize cfg => snd (CPUMonitor.initialize cfg s)
  | CpuStart => snd (CPUMonitor.start s)
  | CpuStop => snd (CPUMonitor.stop s)
  | CpuGetStatus => snd (CPUMonitor.get_status s)
  | CpuGetHealth => snd (CPUMonitor.get_health s)
  | CpuDetectTriggers => snd (CPUMonitor.detect_triggers s)
  | CpuGetTriggerConfig => snd (CPUMonitor.get_trigger_config s)
  end.

Definition cpu_after (E : Env) (calls : list cpu_call) : Sys CPUMonitor.Plugin :=
  fold_left cpu_step calls (CPUMonitor.boot E).

Inductive service_call : Type :=
| SvcGetInfo
| SvcInitialize (cfg : pyval)
| SvcStart
| SvcStop
| SvcGetStatus
| SvcGetHealth
| SvcExecuteAction (action_request : pyval)
| SvcGetActionConfig.

Definition service_step (s : Sys ServiceRestart.Plugin) (c : service_call)
    : Sys ServiceRestart.Plugin :=
  match c with
  | SvcGetInfo => snd (ServiceRestart.get_info s)
  | SvcInitialize cfg => snd (ServiceRestart.initialize cfg s)
  | SvcStart => snd (ServiceRestart.start s)
  | SvcStop => snd (ServiceRestart.stop s)
  | SvcGetStatus => snd (ServiceRestart.get_status s)
  | SvcGetHealth => snd (ServiceRestart.get_health s)
  | SvcExecuteAction req => snd (ServiceRestart.execute_action req s)
  | SvcGetActionConfig => snd (ServiceRestart.get_action_config s)
  end.

Definition service_after (E : Env) (calls : list service_call)
    : Sys ServiceRestart.Plugin :=
  fold_left service_step calls (ServiceRestart.boot E).

(** What the two lifecycle fields and start_time keep of each other. *)
Definition cpu_consistent (p : CPUMonitor.Plugin) : Prop :=
  (CPUMonitor.status p = "running" -> CPUMonitor.running p = true)
  /\ (CPUMonitor.running p = true -> CPUMonitor.start_time p <> None).

Definition service_consistent (p : ServiceRestart.Plugin) : Prop :=
  (ServiceRestart.status p = "running" -> ServiceRestart.running p = true)
  /\ (ServiceRestart.running p = true -> ServiceRestart.start_time p <> None).

(** ** Configurations that fail validation *)

Module Claim.

(** The claim's reading of a configuration that fails validation, for the
    CPU monitor: the threshold the plugin derives from the configuration
    lies outside [0, 100] (or is not a number at all), or the interval it
    derives is below 1, or one of the two cannot be derived. *)
Definition out_of_range (f : float) : bool :=
  PyFloat.ltb f PyFloat.f0 || PyFloat.ltb PyFloat.f100 f || PyFloat.is_nan f.

Definition derived_threshold (E : Env) (cfg : pyval) : outcome float :=
  match py_get cfg "threshold" (PFloat PyFloat.f80) with
  | Ok t => py_float E t
  | Raise e => Raise e
  end.

Definition derived_interval (E : Env) (cfg : pyval) : outcome Z :=
  match py_get cfg "interval" (PInt 30) with
  | Ok i => py_int E i
  | Raise e => Raise e
  end.

Definition fails_validation (E : Env) (cfg : pyval) : bool :=
  match derived_threshold E cfg, derived_interval E cfg with
  | Ok f, Ok n => out_of_range f || (n <? 1)
  | _, _ => true
  end.

End Claim.

(** ** Action requests and results *)




(** ** The dispatch loop, one line at a time *)

(** What the loop does with one non-blank line: the body of the [try] with
    its handler. *)
Definition answer {P : Type} (dispatch : pyval -> pyval -> dict -> M P dict)
    (line : string) : M P unit :=
  try_except (handle_line dispatch line) plugin_error.

Definition cpu_actions : list string :=
  ["get_info"; "initialize"; "start"; "stop"; "get_status"; "get_health";
   "detect_triggers"; "get_trigger_config"].

Definition service_actions : list string :=
  ["get_info"; "initialize"; "start"; "stop"; "get_status"; "get_health";
   "execute_action"; "get_action_config"].

Definition unknown_response (a : string) : pyval :=
  PDict [("action", PStr a); ("success", PBool false);
         ("error", PStr ("Unknown action: " ++ a))].

(** The state after one more line was printed. *)
Definition emit {P : Type} (s : Sys P) (v : pyval) : Sys P :=
  {| self := self s;
     world := {| env := env (world s); tick := tick (world s);
                 stdout := stdout (world s) ++ [v] |} |}.

(** A line made of whitespace only (the empty line included). *)
Fixpoint only_whitespace (s : string) : bool :=
  match s with
  | EmptyString => true
  | String c s' => is_space c && only_whitespace s'
  end.

(** ** More vocabulary: preservation, envelopes, accepted requests *)

(** [m] keeps the relation [R] between the state it starts from and the
    state it ends in, whether it returns or raises. *)
Definition preserves {P A : Type} (R : Sys P -> Sys P -> Prop) (m : M P A) : Prop :=
  forall s, R s (snd (m s)).

(** The printed lines and the oracles stay as they are. *)
Definition same_output {P : Type} (s s' : Sys P) : Prop :=
  stdout (world s') = stdout (world s) /\ env (world s') = env (world s).

(** The plugin object stays as it is. *)
Definition same_self {P : Type} (s s' : Sys P) : Prop := self s' = self s.

(** The calls of [readline] the loop answers: those before the first that
    returns a blank line. *)
Fixpoint served (stdin : list (exn + string)) : list (exn + string) :=
  match stdin with
  | [] => []
  | inl e :: rest => inl e :: served rest
  | inr l :: rest => if only_whitespace l then [] else inr l :: served rest
  end.

Definition is_dict (v : pyval) : bool :=
  match v with PDict _ => true | _ => false end.

(** The command on [line] asks for one of the three lifecycle transitions. *)
Definition lifecycle_command (E : Env) (line : string) : bool :=
  match json_loads E line with
  | Ok (PDict cmd) =>
      in_strs (dict_get cmd "action" PNone) ["initialize"; "start"; "stop"]
  | _ => false
  end.

(** The shapes a response to a decoded command object can take. *)
Inductive envelope (E : Env) (known : list string) (a : pyval) : pyval -> Prop :=
| env_transition (b : bool) :
    in_strs a ["initialize"; "start"; "stop"] = true ->
    envelope E known a (PDict [("action", a); ("success", PBool b)])
| env_data (v : pyval) :
    in_strs a known = true ->
    in_strs a ["initialize"; "start"; "stop"] = false ->
    envelope E known a (PDict [("action", a); ("success", PBool true); ("data", v)])
| env_unknown :
    in_strs a known = false ->
    envelope E known a
      (PDict [("action", a); ("success", PBool false);
              ("error", PStr ("Unknown action: " ++ py_str E a))])
| env_fault (msg : string) :
    envelope E known a (PDict [("error", PStr ("Plugin error: " ++ msg))]).

Definition lifecycle_states : list string :=
  ["stopped"; "initialized"; "running"; "error"].

(** How one call changes the lifecycle fields of the plugin object. *)
Inductive cpu_effect (p p' : CPUMonitor.Plugin) : Prop :=
| cpu_untouched : p' = p -> cpu_effect p p'
| cpu_initialized :
    CPUMonitor.running p' = CPUMonitor.running p ->
    CPUMonitor.start_time p' = CPUMonitor.start_time p ->
    CPUMonitor.status p' = "initialized" \/ CPUMonitor.status p' = "error" ->
    cpu_effect p p'
| cpu_started :
    CPUMonitor.running p = false ->
    CPUMonitor.running p' = true ->
    CPUMonitor.status p' = "running" ->
    CPUMonitor.start_time p' <> None ->
    cpu_effect p p'
| cpu_stopped :
    CPUMonitor.running p' = false ->
    CPUMonitor.status p' = "stopped" ->
    CPUMonitor.start_time p' = CPUMonitor.start_time p ->
    cpu_effect p p'.

Inductive service_effect (p p' : ServiceRestart.Plugin) : Prop :=
| service_untouched : p' = p -> service_effect p p'
| service_initialized :
    ServiceRestart.running p' = ServiceRestart.running p ->
    ServiceRestart.start_time p' = ServiceRestart.start_time p ->
    ServiceRestart.status p' = "initialized" \/ ServiceRestart.status p' = "error" ->
    service_effect p p'
| service_started :
    ServiceRestart.running p = false ->
    ServiceRestart.running p' = true ->
    ServiceRestart.status p' = "running" ->
    ServiceRestart.start_time p' <> None ->
    service_effect p p'
| service_stopped :
    ServiceRestart.running p' = false ->
    ServiceRestart.status p' = "stopped" ->
    ServiceRestart.start_time p' = ServiceRestart.start_time p ->
    service_effect p p'.

Definition cpu_lifecycle_ok (p : CPUMonitor.Plugin) : Prop :=
  In (CPUMonitor.status p) lifecycle_states
  /\ (CPUMonitor.status p = "running" -> CPUMonitor.running p = true)
  /\ (CPUMonitor.status p = "stopped" -> CPUMonitor.running p = false)
  /\ (CPUMonitor.running p = true -> CPUMonitor.start_time p <> None).

Definition service_lifecycle_ok (p : ServiceRestart.Plugin) : Prop :=
  In (ServiceRestart.status p) lifecycle_states
  /\ (ServiceRestart.status p = "running" -> ServiceRestart.running p = true)
  /\ (ServiceRestart.status p = "stopped" -> ServiceRestart.running p = false)
  /\ (ServiceRestart.running p = true -> ServiceRestart.start_time p <> None).

(** The state after one oracle call. *)
Definition ticked {P : Type} (s : Sys P) : Sys P :=
  {| self := self s;
     world := {| env := env (world s); tick := S (tick (world s));
                 stdout := stdout (world s) |} |}.

(** A result of [execute_action] for the request id [id]: completed with
    data and no error, or failed with an error text. *)
Definition terminal_result (id r : pyval) : Prop :=
  field r "id" = Some id
  /\ ((field r "status" = Some (PStr "completed")
       /\ field r "error" = None
       /\ exists data, field r "data" = Some (PDict data)
                       /\ dict_find data "success" = Some (PBool true))
      \/ (field r "status" = Some (PStr "failed")
          /\ exists msg, field r "error" = Some (PStr msg))).


(** [name] passes [_is_valid_service_name]. *)
Definition valid_name (name : string) : bool :=
  ServiceRestart.matches_pattern name && Nat.leb (String.length name) 100.





Definition line_feed : ascii := ascii_of_nat 10.

(** Every character of [s] satisfies [f]. *)
Fixpoint all_chars (f : ascii -> bool) (s : string) : bool :=
  match s with
  | EmptyString => true
  | String c s' => f c && all_chars f s'
  end.

(** What [initialize] of the action plugin returned and the lifecycle state
    it left. *)
Definition initialize_gave (s : Sys ServiceRestart.Plugin) (d : dict)
    (ok : bool) : Prop :=
  fst (ServiceRestart.initialize (PDict d) s) = Ok ok
  /\ ServiceRestart.status (self (snd (ServiceRestart.initialize (PDict d) s)))
     = (if ok then "initialized" else "error").

(** The value at a path of keys in nested dicts. *)
Fixpoint at_path (v : pyval) (path : list string) : option pyval :=
  match path with
  | [] => Some v
  | k :: path' =>
      match field v k with
      | Some v' => at_path v' path'
      | None => None
      end
  end.

(* ================================================================== *)
(** * Properties *)

(** ** Tactics *)

Ltac open_cpu s :=
  let E := fresh "E" in
  let k := fresh "k" in
  let out := fresh "out" in
  destruct s as [[cfg thr itv run st t0] [E k out]].

Ltac open_svc s :=
  let E := fresh "E" in
  let k := fresh "k" in
  let out := fresh "out" in
  destruct s as [[cfg run st t0 allowed mgr] [E k out]].

Ltac run_monad :=
  unfold bind, ret, raise, lift, try_except, get_self, modify_self, get_env,
    datetime_now, ask, print; simpl.

(** Case analysis on the innermost scrutinee of the goal. *)
Ltac break_match :=
  match goal with
  | |- context [match ?X with _ => _ end] =>
      lazymatch X with
      | context [match _ with _ => _ end] => fail
      | _ => destruct X eqn:?
      end
  end.

Ltac open_execute_action :=
  unfold ServiceRestart.execute_action, ServiceRestart.attempt,
    ServiceRestart._create_error_result, ServiceRestart._is_valid_service_name,
    ServiceRestart._execute_restart_command,
    ServiceRestart._simulate_restart_command,
    ServiceRestart.run, ServiceRestart.sleep;
  run_monad.

(** ** Order of floats *)

Lemma SFcompare_swap (a b : float) :
  SFcompare b a = option_map CompOpp (SFcompare a b).
Proof.
  destruct a as [sa|sa| |sa ma ea], b as [sb|sb| |sb mb eb]; simpl;
    try reflexivity;
    try (destruct sa; reflexivity);
    try (destruct sb; reflexivity);
    try (destruct sa, sb; reflexivity).
  destruct sa, sb; simpl; try reflexivity;
    rewrite (Z.compare_antisym ea eb);
    destruct (ea ?= eb) eqn:He; simpl; try reflexivity;
    rewrite ?(Pos.compare_cont_antisym ma mb Eq); simpl;
    reflexivity.
Qed.

Lemma ltb_not_leb (a b : float) :
  PyFloat.ltb a b = true -> PyFloat.leb b a = false.
Proof.
  unfold PyFloat.ltb, PyFloat.leb, SFltb, SFleb.
  rewrite (SFcompare_swap a b).
  destruct (SFcompare a b) as [[ | | ]|]; simpl; congruence.
Qed.

Lemma leb_not_ltb (a b : float) :
  PyFloat.leb a b = true -> PyFloat.ltb b a = false.
Proof.
  unfold PyFloat.ltb, PyFloat.leb, SFltb, SFleb.
  rewrite (SFcompare_swap a b).
  destruct (SFcompare a b) as [[ | | ]|]; simpl; congruence.
Qed.

Lemma SFcompare_total (a b : float) :
  PyFloat.is_nan a = false -> PyFloat.is_nan b = false ->
  SFcompare a b <> None.
Proof.
  destruct a, b; simpl; congruence.
Qed.

Lemma not_ltb_leb (a b : float) :
  PyFloat.is_nan a = false -> PyFloat.is_nan b = false ->
  PyFloat.ltb a b = false -> PyFloat.leb b a = true.
Proof.
  intros Ha Hb.
  pose proof (SFcompare_total a b Ha Hb) as HT.
  unfold PyFloat.ltb, PyFloat.leb, SFltb, SFleb.
  rewrite (SFcompare_swap a b).
  destruct (SFcompare a b) as [[ | | ]|]; simpl; congruence.
Qed.

Lemma out_of_range_spec (f : float) :
  CPUMonitor.threshold_in_range f = negb (Claim.out_of_range f).
Proof.
  unfold CPUMonitor.threshold_in_range, Claim.out_of_range.
  destruct (PyFloat.is_nan f) eqn:Hnan.
  - destruct f; try discriminate. rewrite !orb_true_r. reflexivity.
  - rewrite orb_false_r.
    destruct (PyFloat.ltb f PyFloat.f0) eqn:H0.
    + rewrite (ltb_not_leb _ _ H0). reflexivity.
    + rewrite (not_ltb_leb f PyFloat.f0 Hnan eq_refl H0).
      destruct (PyFloat.ltb PyFloat.f100 f) eqn:H100.
      * rewrite (ltb_not_leb _ _ H100). reflexivity.
      * rewrite (not_ltb_leb PyFloat.f100 f eq_refl Hnan H100). reflexivity.
Qed.

(** ** Dicts and lines *)

Lemma dict_get_found (d : dict) (k : string) (dflt v : pyval) :
  dict_find d k = Some v -> dict_get d k dflt = v.
Proof. unfold dict_get. intros ->. reflexivity. Qed.

Lemma existsb_eqb_false (a : string) (l : list string) :
  existsb (String.eqb a) l = false ->
  forall x, In x l -> String.eqb a x = false.
Proof.
  induction l as [|y l IH]; simpl; intros H x Hx; [contradiction|].
  apply orb_false_elim in H. destruct H as [Hy Hl].
  destruct Hx as [<-|Hx]; [exact Hy | exact (IH Hl x Hx)].
Qed.

Lemma lstrip_blank (s : string) : only_whitespace s = true -> lstrip s = "".
Proof.
  induction s as [|c s IH]; simpl; [reflexivity|].
  intros H. apply andb_prop in H. destruct H as [Hc Hs].
  rewrite Hc. exact (IH Hs).
Qed.

Lemma strip_blank (s : string) : only_whitespace s = true -> strip s = "".
Proof.
  intros H. unfold strip. rewrite (lstrip_blank s H). reflexivity.
Qed.

Lemma rstrip_keeps_head (c : ascii) (s : string) :
  is_space c = false -> rstrip (String c s) <> "".
Proof.
  intros Hc. simpl. destruct (rstrip s); [rewrite Hc|]; discriminate.
Qed.

(** The other way round: only such lines strip to nothing. *)
Lemma strip_blank_inv (s : string) : strip s = "" -> only_whitespace s = true.
Proof.
  unfold strip. induction s as [|c s IH]; simpl; [reflexivity|].
  destruct (is_space c) eqn:Hc; simpl.
  - exact IH.
  - intros H. exfalso. revert H. fold (rstrip (String c s)).
    apply rstrip_keeps_head. exact Hc.
Qed.

(** ** The dispatch loop goes on *)

Lemma answer_returns {P : Type} (dispatch : pyval -> pyval -> dict -> M P dict)
    (line : string) (s : Sys P) :
  fst (answer dispatch line s) = Ok tt.
Proof.
  unfold answer, try_except, plugin_error, print.
  destruct (handle_line dispatch line s) as [[[]|e] s']; reflexivity.
Qed.

(** No failure ends the loop: after a non-blank line it goes on with the
    rest of the input. *)
Lemma main_loop_cons {P : Type} (dispatch : pyval -> pyval -> dict -> M P dict)
    (l : string) (rest : list (exn + string)) (s : Sys P) :
  strip l <> "" ->
  main_loop dispatch (inr l :: rest) s
  = main_loop dispatch rest (snd (answer dispatch (strip l) s)).
Proof.
  intros Hl. apply String.eqb_neq in Hl.
  cbn [main_loop]. rewrite Hl. unfold bind. fold (answer dispatch (strip l)).
  pose proof (answer_returns dispatch (strip l) s) as H.
  destruct (answer dispatch (strip l) s) as [[u|e] s']; simpl in *;
    [reflexivity | discriminate].
Qed.

Lemma main_loop_blank {P : Type} (dispatch : pyval -> pyval -> dict -> M P dict)
    (l : string) (rest : list (exn + string)) (s : Sys P) :
  strip l = "" ->
  main_loop dispatch (inr l :: rest) s = (Ok tt, s).
Proof.
  intros Hl. cbn [main_loop]. rewrite Hl. reflexivity.
Qed.

(** Nor does a read that fails: it is answered and the loop reads again. *)
Lemma main_loop_fault {P : Type} (dispatch : pyval -> pyval -> dict -> M P dict)
    (e : exn) (rest : list (exn + string)) (s : Sys P) :
  main_loop dispatch (inl e :: rest) s
  = main_loop dispatch rest
      (emit s (PDict [("error", PStr ("Plugin error: " ++ exn_str e))])).
Proof. reflexivity. Qed.

Lemma main_loop_stops {P : Type} (dispatch : pyval -> pyval -> dict -> M P dict)
    (pre : list (exn + string)) (b : string) (rest : list (exn + string)) :
  strip b = "" ->
  forall s, main_loop dispatch (pre ++ inr b :: rest) s = main_loop dispatch pre s.
Proof.
  intros Hb. induction pre as [|[e|l] pre IH]; intros s.
  - simpl app. rewrite (main_loop_blank dispatch b rest s Hb). reflexivity.
  - simpl app. rewrite !main_loop_fault. apply IH.
  - simpl app. destruct (String.eqb_spec (strip l) "") as [Hl|Hl].
    + rewrite !(main_loop_blank dispatch l _ s Hl). reflexivity.
    + rewrite !(main_loop_cons dispatch l _ s Hl). apply IH.
Qed.

(** ** Lifecycle: what every plugin instance satisfies *)

Lemma cpu_step_consistent (s : Sys CPUMonitor.Plugin) (c : cpu_call) :
  cpu_consistent (self s) -> cpu_consistent (self (cpu_step s c)).
Proof.
  unfold cpu_consistent. open_cpu s. destruct c; simpl; try (intros H; exact H).
  - unfold CPUMonitor.initialize. run_monad. intros [H1 H2].
    repeat (break_match; simpl); (split; [discriminate | exact H2]).
  - destruct run; simpl; intros [H1 H2]; (split; [auto | auto; discriminate]).
  - intros _. split; discriminate.
  - unfold CPUMonitor.get_health, CPUMonitor._get_cpu_usage. run_monad.
    repeat (break_match; simpl); intros H; exact H.
  - unfold CPUMonitor.detect_triggers, CPUMonitor._probe_host, CPUMonitor._get_cpu_usage. run_monad.
    repeat (break_match; simpl); intros H; exact H.
Qed.

Lemma cpu_after_consistent (E : Env) (calls : list cpu_call) :
  cpu_consistent (self (cpu_after E calls)).
Proof.
  unfold cpu_after.
  assert (H : cpu_consistent (self (CPUMonitor.boot E))) by (split; discriminate).
  revert H. generalize (CPUMonitor.boot E).
  induction calls as [|c calls IH]; intros s H; simpl; [exact H|].
  apply IH. apply cpu_step_consistent. exact H.
Qed.

Lemma service_step_consistent (s : Sys ServiceRestart.Plugin) (c : service_call) :
  service_consistent (self s) -> service_consistent (self (service_step s c)).
Proof.
  unfold service_consistent. open_svc s.
  destruct c; simpl; try (intros H; exact H).
  - unfold ServiceRestart.initialize, ServiceRestart._check_service_manager,
      ServiceRestart.run.
    run_monad. intros [H1 H2].
    repeat (break_match; simpl); (split; [discriminate | exact H2]).
  - destruct run; simpl; intros [H1 H2]; (split; [auto | auto; discriminate]).
  - intros _. split; discriminate.
  - unfold ServiceRestart.get_health. run_monad.
    repeat (break_match; simpl); intros H; exact H.
  - open_execute_action.
    repeat (break_match; simpl); intros H; exact H.
Qed.

Lemma service_after_consistent (E : Env) (calls : list service_call) :
  service_consistent (self (service_after E calls)).
Proof.
  unfold service_after.
  assert (H : service_consistent (self (ServiceRestart.boot E)))
    by (split; discriminate).
  revert H. generalize (ServiceRestart.boot E).
  induction calls as [|c calls IH]; intros s H; simpl; [exact H|].
  apply IH. apply service_step_consistent. exact H.
Qed.

Lemma cpu_health (s : Sys CPUMonitor.Plugin) :
  match fst (CPUMonitor.get_health s) with
  | Ok h =>
      (field h "status" = Some (PStr "healthy")
       <-> CPUMonitor.running (self s) = true)
      /\ field h "uptime"
         = Some (match CPUMonitor.start_time (self s) with
                 | Some t0 =>
                     PSeconds (clock (env (world s)) (S (S (tick (world s)))) - t0)
                 | None => PInt 0
                 end)
  | Raise e => cpu_percent (env (world s)) (S (tick (world s))) = inl e
  end.
Proof.
  open_cpu s. unfold CPUMonitor.get_health, CPUMonitor._get_cpu_usage. run_monad.
  destruct (cpu_percent E (S k)) as [e|v]; simpl; [reflexivity|].
  destruct t0, run; simpl; (split; [split; congruence | reflexivity]).
Qed.

Lemma service_health (s : Sys ServiceRestart.Plugin) :
  match fst (ServiceRestart.get_health s) with
  | Ok h =>
      (field h "status" = Some (PStr "healthy")
       <-> ServiceRestart.running (self s) = true)
      /\ field h "uptime"
         = Some (match ServiceRestart.start_time (self s) with
                 | Some t0 =>
                     PSeconds (clock (env (world s)) (S (tick (world s))) - t0)
                 | None => PInt 0
                 end)
  | Raise e => py_len (ServiceRestart.allowed_services (self s)) = Raise e
  end.
Proof.
  open_svc s. unfold ServiceRestart.get_health. run_monad.
  destruct (py_len allowed) as [n|e]; simpl; [|reflexivity].
  destruct t0, run; simpl; (split; [split; congruence | reflexivity]).
Qed.

(** ** Lifecycle: health *)

(** C1, as the code has it.  For every plugin instance, [get_health()]
    reports uptime equal to now - start_time when the plugin is running, and
    as well when it was started and stopped since ([stop()] keeps
    start_time); the uptime is 0 only when the plugin was never started.
    It reports status healthy exactly when the running flag of the plugin
    is set, so whenever the lifecycle state is running; the flag can be set
    in another lifecycle state.  The call fails only when the CPU sensor
    fails (CPU monitor) or when the configured allow-list has no length
    (service restart). *)
Theorem get_health_reports :
  (forall (E0 : Env) (calls : list cpu_call),
      let s := cpu_after E0 calls in
      let now := clock (env (world s)) (S (S (tick (world s)))) in
      CPUMonitor.start_time (self (snd (CPUMonitor.stop s)))
        = CPUMonitor.start_time (self s)
      /\ match fst (CPUMonitor.get_health s) with
         | Ok h =>
             (field h "status" = Some (PStr "healthy")
              <-> CPUMonitor.running (self s) = true)
             /\ (fst (CPUMonitor.get_status s) = Ok "running" ->
                 field h "status" = Some (PStr "healthy"))
             /\ (CPUMonitor.running (self s) = true ->
                 exists t0, CPUMonitor.start_time (self s) = Some t0
                            /\ field h "uptime" = Some (PSeconds (now - t0)))
             /\ (forall t0, CPUMonitor.start_time (self s) = Some t0 ->
                            field h "uptime" = Some (PSeconds (now - t0)))
             /\ (CPUMonitor.start_time (self s) = None ->
                 field h "uptime" = Some (PInt 0))
         | Raise e => cpu_percent (env (world s)) (S (tick (world s))) = inl e
         end)
  /\
  (forall (E0 : Env) (calls : list service_call),
      let s := service_after E0 calls in
      let now := clock (env (world s)) (S (tick (world s))) in
      ServiceRestart.start_time (self (snd (ServiceRestart.stop s)))
        = ServiceRestart.start_time (self s)
      /\ match fst (ServiceRestart.get_health s) with
         | Ok h =>
             (field h "status" = Some (PStr "healthy")
              <-> ServiceRestart.running (self s) = true)
             /\ (fst (ServiceRestart.get_status s) = Ok "running" ->
                 field h "status" = Some (PStr "healthy"))
             /\ (ServiceRestart.running (self s) = true ->
                 exists t0, ServiceRestart.start_time (self s) = Some t0
                            /\ field h "uptime" = Some (PSeconds (now - t0)))
             /\ (forall t0, ServiceRestart.start_time (self s) = Some t0 ->
                            field h "uptime" = Some (PSeconds (now - t0)))
             /\ (ServiceRestart.start_time (self s) = None ->
                 field h "uptime" = Some (PInt 0))
         | Raise e => py_len (ServiceRestart.allowed_services (self s)) = Raise e
         end).
Proof.
  split; intros E0 calls s now.
  - split; [reflexivity|].
    pose proof (cpu_after_consistent E0 calls) as [Hst Hrun].
    pose proof (cpu_health s) as H. fold s in Hst, Hrun.
    destruct (fst (CPUMonitor.get_health s)) as [h|e]; [|exact H].
    destruct H as [Hhealthy Hup].
    split; [exact Hhealthy|].
    split.
    { intros Hs. apply Hhealthy. apply Hst.
      unfold CPUMonitor.get_status, bind, get_self, ret in Hs. simpl in Hs.
      congruence. }
    split.
    { intros Hr. specialize (Hrun Hr).
      destruct (CPUMonitor.start_time (self s)) as [t0|]; [|contradiction].
      exists t0. split; [reflexivity | exact Hup]. }
    split.
    { intros t0 Ht. rewrite Ht in Hup. exact Hup. }
    intros Ht. rewrite Ht in Hup. exact Hup.
  - split; [reflexivity|].
    pose proof (service_after_consistent E0 calls) as [Hst Hrun].
    pose proof (service_health s) as H. fold s in Hst, Hrun.
    destruct (fst (ServiceRestart.get_health s)) as [h|e]; [|exact H].
    destruct H as [Hhealthy Hup].
    split; [exact Hhealthy|].
    split.
    { intros Hs. apply Hhealthy. apply Hst.
      unfold ServiceRestart.get_status, bind, get_self, ret in Hs. simpl in Hs.
      congruence. }
    split.
    { intros Hr. specialize (Hrun Hr).
      destruct (ServiceRestart.start_time (self s)) as [t0|]; [|contradiction].
      exists t0. split; [reflexivity | exact Hup]. }
    split.
    { intros t0 Ht. rewrite Ht in Hup. exact Hup. }
    intros Ht. rewrite Ht in Hup. exact Hup.
Qed.

(** C1 as stated fails: after [start()] and [stop()] the plugin is not
    running, yet [get_health()] reports the time since the start, not 0; and
    after [initialize()] on a running plugin the lifecycle state is
    initialized while the health status is healthy. *)
Lemma get_health_counterexample :
  let stopped := cpu_after Demo.E [CpuStart; CpuStop] in
  let reinit := cpu_after Demo.E [CpuStart; CpuInitialize (PDict [])] in
  (CPUMonitor.running (self stopped) = false
   /\ fst (CPUMonitor.get_status stopped) = Ok "stopped"
   /\ (exists h, fst (CPUMonitor.get_health stopped) = Ok h
                 /\ field h "uptime" = Some (PSeconds 3000000)
                 /\ field h "uptime" <> Some (PInt 0)))
  /\
  (fst (CPUMonitor.get_status reinit) = Ok "initialized"
   /\ fst (CPUMonitor.get_status reinit) <> Ok "running"
   /\ exists h, fst (CPUMonitor.get_health reinit) = Ok h
                /\ field h "status" = Some (PStr "healthy")).
Proof.
  split.
  - split; [reflexivity|]. split; [reflexivity|].
    eexists. split; [reflexivity|]. split; [reflexivity|discriminate].
  - split; [reflexivity|]. split; [discriminate|].
    eexists. split; reflexivity.
Qed.

Lemma get_health_reports_witness :
  let s := cpu_after Demo.E [CpuInitialize (PDict []); CpuStart] in
  fst (CPUMonitor.get_status s) = Ok "running"
  /\ CPUMonitor.running (self s) = true
  /\ exists h,
       fst (CPUMonitor.get_health s) = Ok h
       /\ field h "status" = Some (PStr "healthy")
       /\ exists t0, CPUMonitor.start_time (self s) = Some t0
                     /\ field h "uptime" = Some (PSeconds (3000000 - t0)).
Proof.
  intros s. split; [reflexivity|]. split; [reflexivity|].
  pose proof (proj2 (proj1 get_health_reports Demo.E
                       [CpuInitialize (PDict []); CpuStart])) as H.
  destruct H as (_ & Hst & Hrun & _).
  eexists. split; [reflexivity|].
  split; [exact (Hst eq_refl) | exact (Hrun eq_refl)].
Defined.

(** ** Identity: [get_info] *)

(** C2, as the code has it.  Two [get_info] calls on a plugin return objects
    that agree on every field other than created_at and updated_at; these
    two carry the clock readings taken during the call, so the two objects
    are identical field for field exactly when those readings coincide.  The
    call leaves the plugin object as it was. *)
Theorem get_info_static_fields :
  (forall s1 s2 : Sys CPUMonitor.Plugin,
      exists i1 i2,
        CPUMonitor.get_info s1
          = (Ok i1, {| self := self s1;
                       world := {| env := env (world s1);
                                   tick := S (S (tick (world s1)));
                                   stdout := stdout (world s1) |} |})
        /\ fst (CPUMonitor.get_info s2) = Ok i2
        /\ without stamps i1 = without stamps i2
        /\ field i1 "created_at"
           = Some (PIsoTime (clock (env (world s1)) (tick (world s1))))
        /\ field i1 "updated_at"
           = Some (PIsoTime (clock (env (world s1)) (S (tick (world s1)))))
        /\ (i1 = i2 <->
            clock (env (world s1)) (tick (world s1))
              = clock (env (world s2)) (tick (world s2))
            /\ clock (env (world s1)) (S (tick (world s1)))
              = clock (env (world s2)) (S (tick (world s2)))))
  /\
  (forall s1 s2 : Sys ServiceRestart.Plugin,
      exists i1 i2,
        ServiceRestart.get_info s1
          = (Ok i1, {| self := self s1;
                       world := {| env := env (world s1);
                                   tick := S (S (tick (world s1)));
                                   stdout := stdout (world s1) |} |})
        /\ fst (ServiceRestart.get_info s2) = Ok i2
        /\ without stamps i1 = without stamps i2
        /\ field i1 "created_at"
           = Some (PIsoTime (clock (env (world s1)) (tick (world s1))))
        /\ field i1 "updated_at"
           = Some (PIsoTime (clock (env (world s1)) (S (tick (world s1)))))
        /\ (i1 = i2 <->
            clock (env (world s1)) (tick (world s1))
              = clock (env (world s2)) (tick (world s2))
            /\ clock (env (world s1)) (S (tick (world s1)))
              = clock (env (world s2)) (S (tick (world s2))))).
Proof.
  split; intros [p1 [E1 k1 o1]] [p2 [E2 k2 o2]];
    do 2 eexists; (split; [reflexivity|]); (split; [reflexivity|]);
    (split; [reflexivity|]); (split; [reflexivity|]); (split; [reflexivity|]);
    simpl; (split; [intros H; injection H; auto | intros [-> ->]; reflexivity]).
Qed.

(** C2 as stated fails: with a clock that moves, the second [get_info]
    differs from the first in created_at (and in updated_at). *)
Lemma get_info_counterexample :
  let s := CPUMonitor.boot Demo.E in
  exists i1 i2,
    fst (CPUMonitor.get_info s) = Ok i1
    /\ fst (CPUMonitor.get_info (snd (CPUMonitor.get_info s))) = Ok i2
    /\ field i1 "created_at" = Some (PIsoTime 0)
    /\ field i2 "created_at" = Some (PIsoTime 2000000)
    /\ i1 <> i2.
Proof.
  do 2 eexists. repeat (split; [reflexivity|]). discriminate.
Qed.

(** ** Lifecycle: [start] twice *)

(** C6, as the code has it.  Calling [start()] twice in a row: both calls
    return success, the second call changes nothing (the plugin object after
    it is the one after the first call, start_time included, and no clock
    reading is taken), and the plugin is running (its running flag is set).
    The lifecycle state read by [get_status()] is running after the second
    call exactly when the plugin was not running before the first call or
    its state was running already. *)
Theorem start_twice :
  (forall s : Sys CPUMonitor.Plugin,
      let s1 := snd (CPUMonitor.start s) in
      let s2 := snd (CPUMonitor.start s1) in
      fst (CPUMonitor.start s) = Ok true
      /\ fst (CPUMonitor.start s1) = Ok true
      /\ s2 = s1
      /\ CPUMonitor.start_time (self s2) = CPUMonitor.start_time (self s1)
      /\ CPUMonitor.running (self s2) = true
      /\ (fst (CPUMonitor.get_status s2) = Ok "running"
          <-> CPUMonitor.running (self s) = false
              \/ CPUMonitor.status (self s) = "running"))
  /\
  (forall s : Sys ServiceRestart.Plugin,
      let s1 := snd (ServiceRestart.start s) in
      let s2 := snd (ServiceRestart.start s1) in
      fst (ServiceRestart.start s) = Ok true
      /\ fst (ServiceRestart.start s1) = Ok true
      /\ s2 = s1
      /\ ServiceRestart.start_time (self s2) = ServiceRestart.start_time (self s1)
      /\ ServiceRestart.running (self s2) = true
      /\ (fst (ServiceRestart.get_status s2) = Ok "running"
          <-> ServiceRestart.running (self s) = false
              \/ ServiceRestart.status (self s) = "running")).
Proof.
  split; intros s; [open_cpu s | open_svc s]; destruct run; simpl;
    repeat (split; [reflexivity|]);
    (split; [ intros H; first [left; reflexivity | right; simpl; congruence]
            | intros [H|H]; simpl in H; first [reflexivity | congruence]]).
Qed.

(** C6 as stated fails in one corner: after [initialize()] on a running
    plugin the lifecycle state is initialized, and two [start()] calls, both
    successful, leave it there. *)
Lemma start_twice_counterexample :
  let started := snd (CPUMonitor.start (CPUMonitor.boot Demo.E)) in
  let reinit := snd (CPUMonitor.initialize (PDict []) started) in
  let s1 := snd (CPUMonitor.start reinit) in
  let s2 := snd (CPUMonitor.start s1) in
  fst (CPUMonitor.initialize (PDict []) started) = Ok true
  /\ fst (CPUMonitor.start reinit) = Ok true
  /\ fst (CPUMonitor.start s1) = Ok true
  /\ fst (CPUMonitor.get_status s2) = Ok "initialized"
  /\ fst (CPUMonitor.get_status s2) <> Ok "running".
Proof.
  repeat (split; [reflexivity|]). discriminate.
Qed.

(** ** Trigger detection *)

(** C3, as the code has it.  On a running trigger plugin with threshold
    [t], when the sensor reads [v]: [detect_triggers()] returns None if
    [v <= t] (so also at [v == t]).  If [v > t] it builds the event, which
    queries the host ([psutil.cpu_count()], [os.getloadavg()], [os.uname()])
    inside the [try]: when the queries return, the call returns one event
    carrying the reading, the threshold and what the host reported, with
    severity high above 90 and medium otherwise; when one of them raises,
    the call returns None.  After
    [initialize({"threshold": 80.0, "interval": 30})] and [start()], a
    reading of 95.0 gives, on a host that answers the queries, an event with
    data.cpu_usage 95.0 and severity high. *)
Theorem detect_triggers_threshold :
  (forall (s : Sys CPUMonitor.Plugin) (v : float),
      CPUMonitor.running (self s) = true ->
      cpu_percent (env (world s)) (tick (world s)) = inr v ->
      let t := CPUMonitor.threshold (self s) in
      (PyFloat.leb v t = true ->
       fst (CPUMonitor.detect_triggers s) = Ok PNone)
      /\
      (PyFloat.ltb t v = true ->
       match host_probe (env (world s)) (S (S (S (tick (world s))))) with
       | inr facts =>
           exists ev data,
             fst (CPUMonitor.detect_triggers s) = Ok (PDict ev)
             /\ dict_find ev "data" = Some (PDict data)
             /\ dict_find data "cpu_usage" = Some (PFloat v)
             /\ dict_find data "threshold" = Some (PFloat t)
             /\ dict_find data "cpu_count"
                = Some (CPUMonitor.opt_int (cpu_count facts))
             /\ dict_find data "load_average"
                = Some (CPUMonitor.load_average (loadavg facts))
             /\ dict_find ev "severity"
                = Some (PStr (if PyFloat.ltb PyFloat.f90 v
                              then "high" else "medium"))
       | inl _ => fst (CPUMonitor.detect_triggers s) = Ok PNone
       end))
  /\
  (forall (E : Env) (facts : host_facts),
      cpu_percent E 1%nat = inr PyFloat.f95 ->
      host_probe E 4%nat = inr facts ->
      let cfg := PDict [("threshold", PFloat PyFloat.f80); ("interval", PInt 30)] in
      let s1 := snd (CPUMonitor.initialize cfg (CPUMonitor.boot E)) in
      let s2 := snd (CPUMonitor.start s1) in
      fst (CPUMonitor.initialize cfg (CPUMonitor.boot E)) = Ok true
      /\ CPUMonitor.threshold (self s2) = PyFloat.f80
      /\ exists ev data,
           fst (CPUMonitor.detect_triggers s2) = Ok (PDict ev)
           /\ dict_find ev "data" = Some (PDict data)
           /\ dict_find data "cpu_usage" = Some (PFloat PyFloat.f95)
           /\ dict_find ev "severity" = Some (PStr "high")).
Proof.
  split.
  - intros s v Hrun Hv t. open_cpu s. simpl in *. subst run. subst t.
    unfold CPUMonitor.detect_triggers, CPUMonitor._probe_host,
      CPUMonitor._get_cpu_usage.
    run_monad. rewrite Hv. simpl. split.
    + intros Hle. rewrite (leb_not_ltb _ _ Hle). reflexivity.
    + intros Hlt. rewrite Hlt. simpl.
      destruct (host_probe E (S (S (S k)))) as [e|facts]; simpl;
        [reflexivity|].
      do 2 eexists. repeat (split; [reflexivity|]). reflexivity.
  - intros E facts Hv Hf cfg s1 s2. split; [reflexivity|]. split; [reflexivity|].
    subst s2 s1 cfg.
    unfold CPUMonitor.detect_triggers, CPUMonitor._probe_host,
      CPUMonitor._get_cpu_usage.
    run_monad. rewrite Hv. simpl. rewrite Hf. simpl.
    do 2 eexists. repeat (split; [reflexivity|]). reflexivity.
Qed.

(** C3 as stated fails where a host query raises: threshold 80.0, a reading
    of 95.0, a host on which [os.getloadavg()] raises OSError, and
    [detect_triggers()] returns None. *)
Lemma detect_triggers_counterexample :
  let cfg := PDict [("threshold", PFloat PyFloat.f80); ("interval", PInt 30)] in
  let s1 := snd (CPUMonitor.initialize cfg (CPUMonitor.boot Demo.no_load_average)) in
  let s2 := snd (CPUMonitor.start s1) in
  fst (CPUMonitor.initialize cfg (CPUMonitor.boot Demo.no_load_average)) = Ok true
  /\ CPUMonitor.running (self s2) = true
  /\ CPUMonitor.threshold (self s2) = PyFloat.f80
  /\ cpu_percent (env (world s2)) (tick (world s2)) = inr PyFloat.f95
  /\ PyFloat.ltb PyFloat.f80 PyFloat.f95 = true
  /\ fst (CPUMonitor.detect_triggers s2) = Ok PNone.
Proof.
  repeat (split; [reflexivity|]). reflexivity.
Qed.

Lemma detect_triggers_threshold_witness :
  let s := snd (CPUMonitor.start (CPUMonitor.boot Demo.E)) in
  let facts := {| cpu_count := Some 4; loadavg := None |} in
  (CPUMonitor.running (self s) = true
   /\ cpu_percent Demo.E 1%nat = inr PyFloat.f95
   /\ PyFloat.ltb PyFloat.f80 PyFloat.f95 = true
   /\ host_probe Demo.E 4%nat = inr facts
   /\ exists ev data,
        fst (CPUMonitor.detect_triggers s) = Ok (PDict ev)
        /\ dict_find ev "data" = Some (PDict data)
        /\ dict_find data "cpu_usage" = Some (PFloat PyFloat.f95)
        /\ dict_find data "threshold" = Some (PFloat PyFloat.f80)
        /\ dict_find data "cpu_count" = Some (PInt 4)
        /\ dict_find data "load_average" = Some PNone
        /\ dict_find ev "severity" = Some (PStr "high"))
  /\
  (let s := snd (CPUMonitor.start (CPUMonitor.boot Demo.no_load_average)) in
   CPUMonitor.running (self s) = true
   /\ cpu_percent Demo.no_load_average 1%nat = inr PyFloat.f95
   /\ PyFloat.ltb PyFloat.f80 PyFloat.f95 = true
   /\ fst (CPUMonitor.detect_triggers s) = Ok PNone).
Proof.
  intros s facts. split.
  - split; [reflexivity|]. split; [reflexivity|]. split; [reflexivity|].
    split; [reflexivity|].
    exact (proj2 (proj1 detect_triggers_threshold s PyFloat.f95
                    eq_refl eq_refl) eq_refl).
  - intros s'. split; [reflexivity|]. split; [reflexivity|].
    split; [reflexivity|].
    exact (proj2 (proj1 detect_triggers_threshold s' PyFloat.f95
                    eq_refl eq_refl) eq_refl).
Defined.

(** ** Configuration *)

(** C4.  For every configuration that fails validation, [initialize]
    returns failure and [get_status()] then returns error; every other
    configuration is accepted and the state becomes initialized.  The bounds
    are inclusive: thresholds 0 and 100 are accepted. *)
Theorem initialize_rejects_invalid :
  forall (s : Sys CPUMonitor.Plugin) (cfg : pyval),
    let E := env (world s) in
    let s' := snd (CPUMonitor.initialize cfg s) in
    (Claim.fails_validation E cfg = true ->
     fst (CPUMonitor.initialize cfg s) = Ok false
     /\ fst (CPUMonitor.get_status s') = Ok "error")
    /\
    (Claim.fails_validation E cfg = false ->
     fst (CPUMonitor.initialize cfg s) = Ok true
     /\ fst (CPUMonitor.get_status s') = Ok "initialized")
    /\ Claim.fails_validation E (PDict [("threshold", PFloat PyFloat.f0)]) = false
    /\ Claim.fails_validation E (PDict [("threshold", PFloat PyFloat.f100)]) = false
    /\ Claim.fails_validation E (PDict [("threshold", PInt 0)]) = false
    /\ Claim.fails_validation E (PDict [("threshold", PInt 100)]) = false
    /\ Claim.fails_validation E (PDict [("threshold", PInt 101)]) = true
    /\ Claim.fails_validation E (PDict [("threshold", PInt (-1))]) = true
    /\ Claim.fails_validation E (PDict [("interval", PInt 0)]) = true
    /\ Claim.fails_validation E (PDict [("interval", PInt 1)]) = false.
Proof.
  intros s conf E s'. subst E s'. open_cpu s. simpl.
  split; [|split; [|repeat split; reflexivity]].
  - unfold Claim.fails_validation, Claim.derived_threshold, Claim.derived_interval,
      CPUMonitor.initialize. run_monad.
    destruct (py_get conf "threshold" (PFloat PyFloat.f80)) as [t|e] eqn:Ht; simpl;
      [|intros _; split; reflexivity].
    destruct (py_float E t) as [f|e] eqn:Hf; simpl; [|intros _; split; reflexivity].
    destruct (py_get conf "interval" (PInt 30)) as [i|e] eqn:Hi; simpl;
      [|intros _; split; reflexivity].
    destruct (py_int E i) as [n|e] eqn:Hn; simpl; [|intros _; split; reflexivity].
    rewrite out_of_range_spec, negb_involutive.
    destruct (Claim.out_of_range f); simpl; [intros _; split; reflexivity|].
    destruct (n <? 1); simpl; [intros _; split; reflexivity | discriminate].
  - unfold Claim.fails_validation, Claim.derived_threshold, Claim.derived_interval,
      CPUMonitor.initialize. run_monad.
    destruct (py_get conf "threshold" (PFloat PyFloat.f80)) as [t|e] eqn:Ht; simpl;
      [|discriminate].
    destruct (py_float E t) as [f|e] eqn:Hf; simpl; [|discriminate].
    destruct (py_get conf "interval" (PInt 30)) as [i|e] eqn:Hi; simpl;
      [|discriminate].
    destruct (py_int E i) as [n|e] eqn:Hn; simpl; [|discriminate].
    rewrite out_of_range_spec, negb_involutive.
    destruct (Claim.out_of_range f); simpl; [discriminate|].
    destruct (n <? 1); simpl; [discriminate | intros _; split; reflexivity].
Qed.

Lemma initialize_rejects_invalid_witness :
  let s := CPUMonitor.boot Demo.E in
  let cfg := PDict [("threshold", PInt 150)] in
  Claim.fails_validation Demo.E cfg = true
  /\ fst (CPUMonitor.initialize cfg s) = Ok false
  /\ fst (CPUMonitor.get_status (snd (CPUMonitor.initialize cfg s))) = Ok "error".
Proof.
  intros s cfg. split; [reflexivity|].
  exact (proj1 (initialize_rejects_invalid s cfg) eq_refl).
Defined.

(** ** Action execution *)

Lemma create_error_result_started (action_id : pyval) (msg : string) (t : Z)
    (s : Sys ServiceRestart.Plugin) :
  ServiceRestart._create_error_result action_id msg (Some t) s
  = (Ok (PDict
       [("id", action_id);
        ("status", PStr "failed");
        ("error", PStr msg);
        ("started_at", PIsoTime t);
        ("completed_at", PIsoTime (clock (env (world s)) (tick (world s))));
        ("duration", PSeconds (clock (env (world s)) (S (tick (world s))) - t));
        ("metadata", PDict [("plugin_id", PStr "service-restart");
                            ("plugin_version", PStr "1.0.0")])]),
     {| self := self s;
        world := {| env := env (world s); tick := S (S (tick (world s)));
                    stdout := stdout (world s) |} |}).
Proof. destruct s as [p [E k out]]. reflexivity. Qed.

Lemma create_error_result_fresh (action_id : pyval) (msg : string)
    (s : Sys ServiceRestart.Plugin) :
  ServiceRestart._create_error_result action_id msg None s
  = (Ok (PDict
       [("id", action_id);
        ("status", PStr "failed");
        ("error", PStr msg);
        ("started_at", PIsoTime (clock (env (world s)) (tick (world s))));
        ("completed_at", PIsoTime (clock (env (world s)) (S (tick (world s)))));
        ("duration",
          PSeconds (clock (env (world s)) (S (S (tick (world s))))
                    - clock (env (world s)) (tick (world s))));
        ("metadata", PDict [("plugin_id", PStr "service-restart");
                            ("plugin_version", PStr "1.0.0")])]),
     {| self := self s;
        world := {| env := env (world s); tick := S (S (S (tick (world s))));
                    stdout := stdout (world s) |} |}).
Proof. destruct s as [p [E k out]]. reflexivity. Qed.









(** C10.  On a request object without the key id, [execute_action] raises
    KeyError('id'), running or not, and leaves the plugin object as it was;
    the dispatch loop answers such an execute_action command, also one that
    has no action_request at all, with the single line
    [{"error": "Plugin error: 'id'"}], which has neither action, success
    nor data. *)
Theorem execute_action_without_id :
  (forall (s : Sys ServiceRestart.Plugin) (d : dict),
      dict_find d "id" = None ->
      fst (ServiceRestart.execute_action (PDict d) s) = Raise (key_error "id")
      /\ self (snd (ServiceRestart.execute_action (PDict d) s)) = self s)
  /\
  (forall (s : Sys ServiceRestart.Plugin) (l : string) (rest : list (exn + string))
          (cmd d : dict),
      strip l <> "" ->
      json_loads (env (world s)) (strip l) = Ok (PDict cmd) ->
      dict_find cmd "action" = Some (PStr "execute_action") ->
      dict_get cmd "action_request" (PDict []) = PDict d ->
      dict_find d "id" = None ->
      main_loop ServiceRestart.dispatch (inr l :: rest) s
      = main_loop ServiceRestart.dispatch rest
          {| self := self s;
             world := {| env := env (world s);
                         tick := (if ServiceRestart.running (self s)
                                  then S (tick (world s)) else tick (world s));
                         stdout := stdout (world s)
                                   ++ [PDict [("error", PStr "Plugin error: 'id'")]] |} |}).
Proof.
  split.
  - intros s d Hid. open_svc s.
    unfold ServiceRestart.execute_action. run_monad. rewrite Hid.
    destruct run; simpl; split; reflexivity.
  - intros s l rest cmd d Hl Hjson Hact Hreq Hid.
    rewrite (main_loop_cons _ l rest s Hl).
    assert (snd (answer ServiceRestart.dispatch (strip l) s)
      = {| self := self s;
           world := {| env := env (world s);
                       tick := (if ServiceRestart.running (self s)
                                then S (tick (world s)) else tick (world s));
                       stdout := stdout (world s)
                                 ++ [PDict [("error", PStr "Plugin error: 'id'")]] |} |})
      as Hk.
    { open_svc s. simpl in *.
      unfold answer, handle_line, plugin_error, ServiceRestart.dispatch,
        ServiceRestart.execute_action.
      run_monad. rewrite Hjson. simpl.
      rewrite (dict_get_found cmd "action" PNone _ Hact). simpl.
      rewrite Hreq. simpl. rewrite Hid.
      destruct run; simpl; reflexivity. }
    rewrite Hk. reflexivity.
Qed.

Lemma execute_action_without_id_witness :
  let s := ServiceRestart.boot Demo.E in
  let l := Demo.command_line "execute_action" in
  strip l <> ""
  /\ json_loads Demo.E (strip l) = Ok (PDict [("action", PStr "execute_action")])
  /\ fst (ServiceRestart.execute_action (PDict []) s) = Raise (key_error "id")
  /\ stdout (world (ServiceRestart.main Demo.E [inr l]))
     = [PDict [("error", PStr "Plugin error: 'id'")]].
Proof.
  intros s l. split; [discriminate|]. split; [reflexivity|]. split.
  - exact (proj1 (proj1 execute_action_without_id s [] eq_refl)).
  - assert (Hl : strip l <> "") by discriminate.
    unfold ServiceRestart.main. fold s.
    rewrite (proj2 execute_action_without_id s l []
               [("action", PStr "execute_action")] [] Hl eq_refl eq_refl eq_refl
               eq_refl).
    reflexivity.
Defined.

(** ** The dispatch loop: unknown actions and blank lines *)

Lemma cpu_unknown_action (s : Sys CPUMonitor.Plugin) (line : string) (cmd : dict)
    (a : string) :
  json_loads (env (world s)) line = Ok (PDict cmd) ->
  dict_find cmd "action" = Some (PStr a) ->
  existsb (String.eqb a) cpu_actions = false ->
  answer CPUMonitor.dispatch line s = (Ok tt, emit s (unknown_response a)).
Proof.
  intros Hjson Hact Hun.
  pose proof (existsb_eqb_false a cpu_actions Hun) as Hno.
  unfold answer, handle_line, CPUMonitor.dispatch, unknown_action.
  destruct s as [p [E k out]]. simpl in *. run_monad. rewrite Hjson. simpl.
  rewrite (dict_get_found cmd "action" PNone _ Hact). simpl.
  rewrite !Hno by (simpl; tauto). reflexivity.
Qed.

Lemma service_unknown_action (s : Sys ServiceRestart.Plugin) (line : string)
    (cmd : dict) (a : string) :
  json_loads (env (world s)) line = Ok (PDict cmd) ->
  dict_find cmd "action" = Some (PStr a) ->
  existsb (String.eqb a) service_actions = false ->
  answer ServiceRestart.dispatch line s = (Ok tt, emit s (unknown_response a)).
Proof.
  intros Hjson Hact Hun.
  pose proof (existsb_eqb_false a service_actions Hun) as Hno.
  unfold answer, handle_line, ServiceRestart.dispatch, unknown_action.
  destruct s as [p [E k out]]. simpl in *. run_monad. rewrite Hjson. simpl.
  rewrite (dict_get_found cmd "action" PNone _ Hact). simpl.
  rewrite !Hno by (simpl; tauto). reflexivity.
Qed.

(** C8.  For a command line that decodes to an object whose action is a
    string outside the actions the plugin knows, the loop prints exactly one
    response, [{"action": a, "success": false, "error": "Unknown action: a"}],
    changes nothing else, and goes on with the next line. *)
Theorem unknown_action_answer :
  (forall (s : Sys CPUMonitor.Plugin) (l : string) (rest : list (exn + string))
          (cmd : dict) (a : string),
      strip l <> "" ->
      json_loads (env (world s)) (strip l) = Ok (PDict cmd) ->
      dict_find cmd "action" = Some (PStr a) ->
      existsb (String.eqb a) cpu_actions = false ->
      main_loop CPUMonitor.dispatch (inr l :: rest) s
      = main_loop CPUMonitor.dispatch rest (emit s (unknown_response a))
      /\ main_loop CPUMonitor.dispatch [inr l] s
         = (Ok tt, emit s (unknown_response a)))
  /\
  (forall (s : Sys ServiceRestart.Plugin) (l : string) (rest : list (exn + string))
          (cmd : dict) (a : string),
      strip l <> "" ->
      json_loads (env (world s)) (strip l) = Ok (PDict cmd) ->
      dict_find cmd "action" = Some (PStr a) ->
      existsb (String.eqb a) service_actions = false ->
      main_loop ServiceRestart.dispatch (inr l :: rest) s
      = main_loop ServiceRestart.dispatch rest (emit s (unknown_response a))
      /\ main_loop ServiceRestart.dispatch [inr l] s
         = (Ok tt, emit s (unknown_response a))).
Proof.
  split; intros s l rest cmd a Hl Hjson Hact Hun.
  - rewrite !(main_loop_cons _ l _ s Hl).
    rewrite (cpu_unknown_action s (strip l) cmd a Hjson Hact Hun).
    split; reflexivity.
  - rewrite !(main_loop_cons _ l _ s Hl).
    rewrite (service_unknown_action s (strip l) cmd a Hjson Hact Hun).
    split; reflexivity.
Qed.

Lemma unknown_action_answer_witness :
  let l := Demo.command_line "foo" in
  strip l <> ""
  /\ json_loads Demo.E (strip l) = Ok (PDict [("action", PStr "foo")])
  /\ stdout (world (CPUMonitor.main Demo.E [inr l]))
     = [PDict [("action", PStr "foo"); ("success", PBool false);
               ("error", PStr "Unknown action: foo")]]
  /\ stdout (world (ServiceRestart.main Demo.E [inr l]))
     = [PDict [("action", PStr "foo"); ("success", PBool false);
               ("error", PStr "Unknown action: foo")]].
Proof.
  intros l. split; [discriminate|]. split; [reflexivity|].
  assert (Hl : strip l <> "") by discriminate.
  unfold CPUMonitor.main, ServiceRestart.main. split.
  - rewrite (proj2 (proj1 unknown_action_answer (CPUMonitor.boot Demo.E) l []
                      [("action", PStr "foo")] "foo" Hl eq_refl eq_refl eq_refl)).
    reflexivity.
  - rewrite (proj2 (proj2 unknown_action_answer (ServiceRestart.boot Demo.E) l []
                      [("action", PStr "foo")] "foo" Hl eq_refl eq_refl eq_refl)).
    reflexivity.
Defined.

(** C9.  When the loop reads a line that is empty or made of whitespace
    only, it ends there, whatever follows: nothing is printed for that line,
    the lines after it are not processed, and the run is the one the input
    cut before that line gives. *)
Theorem blank_line_ends_loop :
  forall (pre : list (exn + string)) (b : string) (rest : list (exn + string)),
    only_whitespace b = true ->
    (forall s, main_loop CPUMonitor.dispatch (inr b :: rest) s = (Ok tt, s))
    /\ (forall s, main_loop ServiceRestart.dispatch (inr b :: rest) s = (Ok tt, s))
    /\ (forall s, main_loop CPUMonitor.dispatch (pre ++ inr b :: rest) s
                  = main_loop CPUMonitor.dispatch pre s)
    /\ (forall s, main_loop ServiceRestart.dispatch (pre ++ inr b :: rest) s
                  = main_loop ServiceRestart.dispatch pre s)
    /\ (forall E, CPUMonitor.main E (pre ++ inr b :: rest) = CPUMonitor.main E pre)
    /\ (forall E, ServiceRestart.main E (pre ++ inr b :: rest)
                  = ServiceRestart.main E pre).
Proof.
  intros pre b rest Hb. apply strip_blank in Hb.
  split; [intros s; apply main_loop_blank; exact Hb|].
  split; [intros s; apply main_loop_blank; exact Hb|].
  split; [intros s; apply main_loop_stops; exact Hb|].
  split; [intros s; apply main_loop_stops; exact Hb|].
  split; intros E; unfold CPUMonitor.main, ServiceRestart.main;
    rewrite (main_loop_stops _ pre b rest Hb); reflexivity.
Qed.

Lemma blank_line_ends_loop_witness :
  let pre := [inr (Demo.command_line "get_status")] in
  let b := "   " ++ Demo.newline in
  let rest := [inr (Demo.command_line "start");
               inr (Demo.command_line "get_status")] in
  only_whitespace b = true
  /\ CPUMonitor.main Demo.E (pre ++ inr b :: rest) = CPUMonitor.main Demo.E pre
  /\ stdout (world (CPUMonitor.main Demo.E (pre ++ inr b :: rest)))
     = [PDict [("action", PStr "get_status"); ("success", PBool true);
               ("data", PStr "stopped")]].
Proof.
  intros pre b rest. split; [reflexivity|].
  pose proof (blank_line_ends_loop pre b rest eq_refl) as (_ & _ & _ & _ & H & _).
  split; [exact (H Demo.E)|]. rewrite (H Demo.E). reflexivity.
Defined.

(* ================================================================== *)
(** * Further properties *)

Section Preservation.

Context {P : Type}.
Variable R : Sys P -> Sys P -> Prop.
Hypothesis R_refl : forall s, R s s.
Hypothesis R_trans : forall s1 s2 s3, R s1 s2 -> R s2 s3 -> R s1 s3.

Lemma preserves_ret {A} (a : A) : preserves R (ret a).
Proof. intros s. apply R_refl. Qed.

Lemma preserves_raise {A} (e : exn) : preserves R (raise (A := A) e).
Proof. intros s. apply R_refl. Qed.

Lemma preserves_lift {A} (o : outcome A) : preserves R (lift o).
Proof. intros s. apply R_refl. Qed.

Lemma preserves_get_self : preserves R get_self.
Proof. intros s. apply R_refl. Qed.

Lemma preserves_get_env : preserves R get_env.
Proof. intros s. apply R_refl. Qed.

Lemma preserves_bind {A B} (m : M P A) (k : A -> M P B) :
  preserves R m -> (forall a, preserves R (k a)) -> preserves R (bind m k).
Proof.
  intros Hm Hk s. unfold bind. specialize (Hm s).
  destruct (m s) as [[a|e] s1]; simpl in *; [|exact Hm].
  eapply R_trans; [exact Hm | apply Hk].
Qed.

Lemma preserves_try_except {A} (m : M P A) (h : exn -> M P A) :
  preserves R m -> (forall e, preserves R (h e)) -> preserves R (try_except m h).
Proof.
  intros Hm Hh s. unfold try_except. specialize (Hm s).
  destruct (m s) as [[a|e] s1]; simpl in *; [exact Hm|].
  eapply R_trans; [exact Hm | apply Hh].
Qed.

End Preservation.

Lemma same_output_refl {P} (s : Sys P) : same_output s s.
Proof. split; reflexivity. Qed.

Lemma same_output_trans {P} (s1 s2 s3 : Sys P) :
  same_output s1 s2 -> same_output s2 s3 -> same_output s1 s3.
Proof. intros [H1 H2] [H3 H4]. split; congruence. Qed.

Lemma same_self_refl {P} (s : Sys P) : same_self s s.
Proof. reflexivity. Qed.

Lemma same_self_trans {P} (s1 s2 s3 : Sys P) :
  same_self s1 s2 -> same_self s2 s3 -> same_self s1 s3.
Proof. unfold same_self. congruence. Qed.

Lemma quiet_ask {P A} (oracle : Env -> nat -> A) : preserves (P := P) same_output (ask oracle).
Proof. intros s. split; reflexivity. Qed.

Lemma quiet_modify_self {P} (f : P -> P) : preserves same_output (modify_self f).
Proof. intros s. split; reflexivity. Qed.

Lemma reading_ask {P A} (oracle : Env -> nat -> A) : preserves (P := P) same_self (ask oracle).
Proof. intros s. reflexivity. Qed.

Lemma reading_print {P} (v : pyval) : preserves (P := P) same_self (print v).
Proof. intros s. reflexivity. Qed.

Ltac quiet_step :=
  first
    [ apply (preserves_bind same_output same_output_trans)
    | apply (preserves_try_except same_output same_output_trans)
    | apply (preserves_ret same_output same_output_refl)
    | apply (preserves_raise same_output same_output_refl)
    | apply (preserves_lift same_output same_output_refl)
    | apply (preserves_get_self same_output same_output_refl)
    | apply (preserves_get_env same_output same_output_refl)
    | apply quiet_ask
    | apply quiet_modify_self
    | match goal with
      | |- preserves _ (match ?x with _ => _ end) => destruct x
      | |- preserves _ (let _ := _ in _) => cbv zeta
      end
    | intro ].

Ltac quiet := repeat quiet_step.

Lemma cpu_dispatch_quiet a c r : preserves same_output (CPUMonitor.dispatch a c r).
Proof.
  unfold CPUMonitor.dispatch, CPUMonitor.get_info, CPUMonitor.initialize, CPUMonitor.start,
    CPUMonitor.stop, CPUMonitor.get_status, CPUMonitor.get_health, CPUMonitor.detect_triggers,
    CPUMonitor._probe_host,
    CPUMonitor.get_trigger_config, CPUMonitor._get_cpu_usage, unknown_action, datetime_now.
  quiet.
Qed.

Lemma svc_dispatch_quiet a c r : preserves same_output (ServiceRestart.dispatch a c r).
Proof.
  unfold ServiceRestart.dispatch, ServiceRestart.get_info, ServiceRestart.initialize, ServiceRestart.start,
    ServiceRestart.stop, ServiceRestart.get_status, ServiceRestart.get_health, 
    ServiceRestart.get_action_config, unknown_action, datetime_now,
    ServiceRestart._check_service_manager,
    ServiceRestart.execute_action, ServiceRestart.attempt,
    ServiceRestart._create_error_result, ServiceRestart._is_valid_service_name,
    ServiceRestart._execute_restart_command,
    ServiceRestart._simulate_restart_command,
    ServiceRestart.run, ServiceRestart.sleep.
  quiet.
Qed.

Lemma only_whitespace_strip (l : string) :
  only_whitespace l = (strip l =? "")%string.
Proof.
  destruct (String.eqb_spec (strip l) "") as [H|H].
  - apply strip_blank_inv. exact H.
  - destruct (only_whitespace l) eqn:Hw; [|reflexivity].
    exfalso. apply H. apply strip_blank. exact Hw.
Qed.

Section OneAnswer.

Context {P : Type}.
Variable dispatch : pyval -> pyval -> dict -> M P dict.
Hypothesis dispatch_quiet : forall a c r, preserves same_output (dispatch a c r).

Lemma answer_prints_once (line : string) (s : Sys P) :
  exists v : pyval,
    stdout (world (snd (answer dispatch line s))) = (stdout (world s) ++ [v])%list
            /\ env (world (snd (answer dispatch line s))) = env (world s).
Proof.
  unfold answer, try_except, handle_line, plugin_error, bind, get_env, lift,
    print, raise.
  destruct (json_loads (env (world s)) line) as [command|e];
    [|destruct (exn_kind_of e); simpl; eexists; split; reflexivity].
  destruct (py_get command "action" PNone) as [action|e];
    [|simpl; eexists; split; reflexivity].
  pose proof (dispatch_quiet action command
                [("action", action); ("success", PBool false)] s) as [Ho He].
  destruct (dispatch action command _ s) as [[response|e] s1]; simpl in *;
    eexists; (split; [rewrite Ho; reflexivity | exact He]).
Qed.

Lemma main_loop_answers (stdin : list (exn + string)) :
  forall s,
    List.length (stdout (world (snd (main_loop dispatch stdin s))))
    = (List.length (stdout (world s)) + List.length (served stdin))%nat
    /\ fst (main_loop dispatch stdin s) = Ok tt.
Proof.
  induction stdin as [|[e|l] rest IH]; intros s.
  - simpl. split; [lia | reflexivity].
  - rewrite main_loop_fault. cbn [served].
    destruct (IH (emit s (PDict [("error", PStr ("Plugin error: " ++ exn_str e))])))
      as [IH1 IH2].
    rewrite IH1. unfold emit. simpl. rewrite List.length_app. simpl.
    split; [lia | exact IH2].
  - cbn [served]. rewrite only_whitespace_strip.
    destruct (String.eqb_spec (strip l) "") as [Hl|Hl].
    + rewrite (main_loop_blank dispatch l rest s Hl). simpl. split; [lia|reflexivity].
    + rewrite (main_loop_cons dispatch l rest s Hl).
      destruct (answer_prints_once (strip l) s) as (v & Hv & _).
      destruct (IH (snd (answer dispatch (strip l) s))) as [IH1 IH2].
      rewrite IH1, Hv, List.length_app. simpl. split; [lia | exact IH2].
Qed.

End OneAnswer.

(** X1.  Whatever [readline] gives, call after call, [main] prints exactly
    one line for each call that comes before the first that returns a blank
    line, the calls that raise (input that is not text) included, and
    nothing else: no call is left unanswered, none is answered twice, and no
    failure, of a read, of the decoding or inside a method, ends the loop.
    A call that raises is answered with
    [{"error": "Plugin error: <message>"}], the plugin is left alone and the
    loop reads again. *)
Theorem one_response_per_line :
  (forall (E : Env) (stdin : list (exn + string)),
      List.length (stdout (world (CPUMonitor.main E stdin)))
      = List.length (served stdin)
      /\ List.length (stdout (world (ServiceRestart.main E stdin)))
         = List.length (served stdin)
      /\ fst (main_loop CPUMonitor.dispatch stdin (CPUMonitor.boot E)) = Ok tt
      /\ fst (main_loop ServiceRestart.dispatch stdin (ServiceRestart.boot E))
         = Ok tt)
  /\
  (forall (e : exn) (rest : list (exn + string)),
      let reply := PDict [("error", PStr ("Plugin error: " ++ exn_str e))] in
      (forall s : Sys CPUMonitor.Plugin,
          main_loop CPUMonitor.dispatch (inl e :: rest) s
          = main_loop CPUMonitor.dispatch rest (emit s reply))
      /\
      (forall s : Sys ServiceRestart.Plugin,
          main_loop ServiceRestart.dispatch (inl e :: rest) s
          = main_loop ServiceRestart.dispatch rest (emit s reply))).
Proof.
  split.
  - intros E stdin. unfold CPUMonitor.main, ServiceRestart.main.
    destruct (main_loop_answers CPUMonitor.dispatch cpu_dispatch_quiet stdin
                (CPUMonitor.boot E)) as [H1 H2].
    destruct (main_loop_answers ServiceRestart.dispatch svc_dispatch_quiet stdin
                (ServiceRestart.boot E)) as [H3 H4].
    simpl in H1, H3. repeat split; assumption.
  - intros e rest reply. split; intros s; apply main_loop_fault.
Qed.

(** X2.  What [json.loads] raises on a non-blank line decides the answer.
    A JSONDecodeError is caught next to the call and answered with
    [{"error": "Invalid JSON command"}]; any other exception (the ValueError
    on an integer of too many digits, a RecursionError on deep nesting)
    passes to the handler of the loop and is answered with
    [{"error": "Plugin error: <message>"}].  Either way the plugin and the
    clock are left alone and the loop goes on with the next line. *)
Theorem malformed_line_answer :
  forall (l : string) (rest : list (exn + string)) (e : exn),
    strip l <> "" ->
    let reply :=
      match exn_kind_of e with
      | JSONDecodeError => PDict [("error", PStr "Invalid JSON command")]
      | _ => PDict [("error", PStr ("Plugin error: " ++ exn_str e))]
      end in
    (forall s : Sys CPUMonitor.Plugin,
        json_loads (env (world s)) (strip l) = Raise e ->
        main_loop CPUMonitor.dispatch (inr l :: rest) s
        = main_loop CPUMonitor.dispatch rest (emit s reply))
    /\
    (forall s : Sys ServiceRestart.Plugin,
        json_loads (env (world s)) (strip l) = Raise e ->
        main_loop ServiceRestart.dispatch (inr l :: rest) s
        = main_loop ServiceRestart.dispatch rest (emit s reply)).
Proof.
  intros l rest e Hl reply. subst reply.
  split; intros s Hjson; rewrite (main_loop_cons _ l rest s Hl);
    f_equal; unfold answer, try_except, handle_line, plugin_error, bind,
      get_env, print, raise, emit;
    rewrite Hjson; destruct (exn_kind_of e); reflexivity.
Qed.

(** X3.  A line that decodes to something that is not an object (a list, a
    number, a string, null) makes [command.get] raise; the handler of the
    loop answers with the protocol error that names the type, and the loop
    goes on. *)
Theorem non_object_command_answer :
  forall (l : string) (rest : list (exn + string)) (v : pyval),
    strip l <> "" ->
    is_dict v = false ->
    (forall s : Sys CPUMonitor.Plugin,
        json_loads (env (world s)) (strip l) = Ok v ->
        main_loop CPUMonitor.dispatch (inr l :: rest) s
        = main_loop CPUMonitor.dispatch rest
            (emit s (PDict [("error",
               PStr ("Plugin error: '" ++ type_name v
                       ++ "' object has no attribute 'get'"))])))
    /\
    (forall s : Sys ServiceRestart.Plugin,
        json_loads (env (world s)) (strip l) = Ok v ->
        main_loop ServiceRestart.dispatch (inr l :: rest) s
        = main_loop ServiceRestart.dispatch rest
            (emit s (PDict [("error",
               PStr ("Plugin error: '" ++ type_name v
                       ++ "' object has no attribute 'get'"))]))).
Proof.
  intros l rest v Hl Hv.
  split; intros s Hjson; rewrite (main_loop_cons _ l rest s Hl);
    f_equal; unfold answer, try_except, handle_line, bind, get_env, print, emit,
      plugin_error, lift;
    rewrite Hjson; destruct v; try discriminate Hv; reflexivity.
Qed.

(** X4.  A command object without the key action is treated as the unknown
    action None: the answer echoes action null, success false, and the error
    "Unknown action: None". *)
Theorem missing_action_answer :
  forall (l : string) (rest : list (exn + string)) (cmd : dict),
    strip l <> "" ->
    dict_find cmd "action" = None ->
    (forall s : Sys CPUMonitor.Plugin,
        json_loads (env (world s)) (strip l) = Ok (PDict cmd) ->
        main_loop CPUMonitor.dispatch (inr l :: rest) s
        = main_loop CPUMonitor.dispatch rest
            (emit s (PDict [("action", PNone); ("success", PBool false);
                            ("error", PStr "Unknown action: None")])))
    /\
    (forall s : Sys ServiceRestart.Plugin,
        json_loads (env (world s)) (strip l) = Ok (PDict cmd) ->
        main_loop ServiceRestart.dispatch (inr l :: rest) s
        = main_loop ServiceRestart.dispatch rest
            (emit s (PDict [("action", PNone); ("success", PBool false);
                            ("error", PStr "Unknown action: None")]))).
Proof.
  intros l rest cmd Hl Hact.
  split; intros s Hjson; rewrite (main_loop_cons _ l rest s Hl);
    f_equal; unfold answer, try_except, handle_line, bind, get_env, print, emit,
      plugin_error, lift, py_get, dict_get;
    rewrite Hjson, Hact; destruct s as [p [E k out]]; reflexivity.
Qed.

Ltac reading_step :=
  first
    [ apply (preserves_bind same_self same_self_trans)
    | apply (preserves_try_except same_self same_self_trans)
    | apply (preserves_ret same_self same_self_refl)
    | apply (preserves_raise same_self same_self_refl)
    | apply (preserves_lift same_self same_self_refl)
    | apply (preserves_get_self same_self same_self_refl)
    | apply (preserves_get_env same_self same_self_refl)
    | apply reading_ask
    | apply reading_print
    | match goal with
      | |- preserves _ (match ?x with _ => _ end) => destruct x
      | |- preserves _ (let _ := _ in _) => cbv zeta
      end
    | intro ].

Ltac reading := repeat reading_step.

Lemma cpu_reads (a c : pyval) (r : dict) :
  in_strs a ["initialize"; "start"; "stop"] = false ->
  preserves same_self (CPUMonitor.dispatch a c r).
Proof.
  unfold in_strs. simpl. intros H.
  apply orb_false_elim in H. destruct H as [Hi H].
  apply orb_false_elim in H. destruct H as [Hs H].
  apply orb_false_elim in H. destruct H as [Hp _].
  unfold CPUMonitor.dispatch. rewrite Hi, Hs, Hp.
  unfold CPUMonitor.get_info, CPUMonitor.get_status, CPUMonitor.get_health,
    CPUMonitor.detect_triggers, CPUMonitor._probe_host, CPUMonitor.get_trigger_config,
    CPUMonitor._get_cpu_usage, unknown_action, datetime_now.
  reading.
Qed.

Lemma service_reads (a c : pyval) (r : dict) :
  in_strs a ["initialize"; "start"; "stop"] = false ->
  preserves same_self (ServiceRestart.dispatch a c r).
Proof.
  unfold in_strs. simpl. intros H.
  apply orb_false_elim in H. destruct H as [Hi H].
  apply orb_false_elim in H. destruct H as [Hs H].
  apply orb_false_elim in H. destruct H as [Hp _].
  unfold ServiceRestart.dispatch. rewrite Hi, Hs, Hp.
  unfold ServiceRestart.get_info, ServiceRestart.get_status,
    ServiceRestart.get_health, ServiceRestart.get_action_config,
    unknown_action, datetime_now,
    ServiceRestart.execute_action, ServiceRestart.attempt,
    ServiceRestart._create_error_result, ServiceRestart._is_valid_service_name,
    ServiceRestart._execute_restart_command,
    ServiceRestart._simulate_restart_command,
    ServiceRestart.run, ServiceRestart.sleep.
  reading.
Qed.

Lemma answer_reads {P : Type} (dispatch : pyval -> pyval -> dict -> M P dict)
    (line : string) (s : Sys P) :
  (forall cmd, json_loads (env (world s)) line = Ok (PDict cmd) ->
     forall r, preserves same_self (dispatch (dict_get cmd "action" PNone) (PDict cmd) r)) ->
  self (snd (answer dispatch line s)) = self s.
Proof.
  intros H.
  unfold answer, try_except, handle_line, plugin_error, bind, get_env, lift,
    print, raise.
  destruct (json_loads (env (world s)) line) as [command|e];
    [|destruct (exn_kind_of e); reflexivity].
  destruct command; try reflexivity. simpl.
  specialize (H d eq_refl [("action", dict_get d "action" PNone); ("success", PBool false)] s).
  unfold same_self in H.
  destruct (dispatch _ _ _ s) as [[response|e] s1]; simpl in *; exact H.
Qed.

(** X6.  Only the commands initialize, start and stop can change the plugin
    object: after any other line (a read, a detection, an executed action,
    an unknown action, a malformed line, a method that raised) the plugin
    object is the one before it. *)
Theorem only_lifecycle_commands_change_plugin :
  forall (line : string),
    (forall s : Sys CPUMonitor.Plugin,
        lifecycle_command (env (world s)) line = false ->
        self (snd (answer CPUMonitor.dispatch line s)) = self s)
    /\
    (forall s : Sys ServiceRestart.Plugin,
        lifecycle_command (env (world s)) line = false ->
        self (snd (answer ServiceRestart.dispatch line s)) = self s).
Proof.
  intros line. split; intros s H; apply answer_reads; intros cmd Hc r;
    unfold lifecycle_command in H; rewrite Hc in H.
  - apply cpu_reads. exact H.
  - apply service_reads. exact H.
Qed.

Lemma eq_str_true (a : pyval) (x : string) : eq_str a x = true -> a = PStr x.
Proof.
  destruct a; simpl; try discriminate. intros H. apply String.eqb_eq in H.
  subst. reflexivity.
Qed.

Ltac envelope_branch :=
  match goal with
  | |- context [if eq_str ?a ?x then _ else _] =>
      let H := fresh "H" in
      destruct (eq_str a x) eqn:H;
      [ apply eq_str_true in H; subst a; simpl;
        repeat break_match; try exact I;
        first [ apply env_transition; reflexivity
              | apply env_data; reflexivity ]
      | ]
  end.

Lemma cpu_envelope (s : Sys CPUMonitor.Plugin) (a c : pyval) :
  match CPUMonitor.dispatch a c [("action", a); ("success", PBool false)] s with
  | (Ok r, _) => envelope (env (world s)) cpu_actions a (PDict r)
  | (Raise _, _) => True
  end.
Proof.
  unfold CPUMonitor.dispatch, bind, ret, unknown_action, get_env, lift,
    CPUMonitor.with_data, CPUMonitor.with_success.
  repeat envelope_branch.
  simpl. apply env_unknown. unfold in_strs, cpu_actions. simpl.
  rewrite H, H0, H1, H2, H3, H4, H5, H6. reflexivity.
Qed.

Lemma service_envelope (s : Sys ServiceRestart.Plugin) (a c : pyval) :
  match ServiceRestart.dispatch a c [("action", a); ("success", PBool false)] s with
  | (Ok r, _) => envelope (env (world s)) service_actions a (PDict r)
  | (Raise _, _) => True
  end.
Proof.
  unfold ServiceRestart.dispatch, bind, ret, unknown_action, get_env, lift,
    ServiceRestart.with_data, ServiceRestart.with_success.
  repeat envelope_branch.
  simpl. apply env_unknown. unfold in_strs, service_actions. simpl.
  rewrite H, H0, H1, H2, H3, H4, H5, H6. reflexivity.
Qed.

Lemma answer_envelope {P : Type} (dispatch : pyval -> pyval -> dict -> M P dict)
    (known : list string) (line : string) (cmd : dict) (s : Sys P) :
  (forall a c,
     match dispatch a c [("action", a); ("success", PBool false)] s with
     | (Ok r, _) => envelope (env (world s)) known a (PDict r)
     | (Raise _, _) => True
     end) ->
  (forall a c r, preserves same_output (dispatch a c r)) ->
  json_loads (env (world s)) line = Ok (PDict cmd) ->
  exists v,
    stdout (world (snd (answer dispatch line s))) = (stdout (world s) ++ [v])%list
    /\ envelope (env (world s)) known (dict_get cmd "action" PNone) v.
Proof.
  intros Hshape Hquiet Hjson.
  unfold answer, try_except, handle_line, plugin_error, bind, get_env, lift, print.
  rewrite Hjson. simpl.
  specialize (Hshape (dict_get cmd "action" PNone) (PDict cmd)).
  pose proof (Hquiet (dict_get cmd "action" PNone) (PDict cmd)
                [("action", dict_get cmd "action" PNone); ("success", PBool false)] s)
    as [Ho _].
  destruct (dispatch _ _ _ s) as [[r|e] s1]; simpl in *; rewrite Ho.
  - eexists. split; [reflexivity | exact Hshape].
  - eexists. split; [reflexivity | apply env_fault].
Qed.

(** X5.  The answer to a command object has one of four shapes: action and
    success alone for initialize, start and stop, also when they fail (a
    failed initialize carries no error text); action, success true and data
    for the other known actions; action, success false and the error
    "Unknown action: ..." for the rest; or the one-key protocol error when a
    method raised. *)
Theorem response_envelope :
  forall (line : string) (cmd : dict),
    (forall s : Sys CPUMonitor.Plugin,
        json_loads (env (world s)) line = Ok (PDict cmd) ->
        exists v,
          stdout (world (snd (answer CPUMonitor.dispatch line s)))
            = (stdout (world s) ++ [v])%list
          /\ envelope (env (world s)) cpu_actions (dict_get cmd "action" PNone) v)
    /\
    (forall s : Sys ServiceRestart.Plugin,
        json_loads (env (world s)) line = Ok (PDict cmd) ->
        exists v,
          stdout (world (snd (answer ServiceRestart.dispatch line s)))
            = (stdout (world s) ++ [v])%list
          /\ envelope (env (world s)) service_actions (dict_get cmd "action" PNone) v).
Proof.
  intros line cmd. split; intros s Hjson.
  - apply answer_envelope; [intros a c; apply cpu_envelope | apply cpu_dispatch_quiet | exact Hjson].
  - apply answer_envelope; [intros a c; apply service_envelope | apply svc_dispatch_quiet | exact Hjson].
Qed.

(** X7.  [stop()] succeeds from every state, leaves the lifecycle state
    stopped and the running flag cleared, consumes nothing of the world, and
    keeps the configuration and start_time; a second [stop()] changes
    nothing, and [detect_triggers()] on the stopped trigger plugin returns
    None without reading the sensor. *)
Theorem stop_always_stops :
  (forall s : Sys CPUMonitor.Plugin,
      let s' := snd (CPUMonitor.stop s) in
      fst (CPUMonitor.stop s) = Ok true
      /\ fst (CPUMonitor.get_status s') = Ok "stopped"
      /\ CPUMonitor.running (self s') = false
      /\ world s' = world s
      /\ CPUMonitor.config (self s') = CPUMonitor.config (self s)
      /\ CPUMonitor.threshold (self s') = CPUMonitor.threshold (self s)
      /\ CPUMonitor.interval (self s') = CPUMonitor.interval (self s)
      /\ CPUMonitor.start_time (self s') = CPUMonitor.start_time (self s)
      /\ CPUMonitor.stop s' = (Ok true, s')
      /\ CPUMonitor.detect_triggers s' = (Ok PNone, s'))
  /\
  (forall s : Sys ServiceRestart.Plugin,
      let s' := snd (ServiceRestart.stop s) in
      fst (ServiceRestart.stop s) = Ok true
      /\ fst (ServiceRestart.get_status s') = Ok "stopped"
      /\ ServiceRestart.running (self s') = false
      /\ world s' = world s
      /\ ServiceRestart.config (self s') = ServiceRestart.config (self s)
      /\ ServiceRestart.allowed_services (self s') = ServiceRestart.allowed_services (self s)
      /\ ServiceRestart.service_manager (self s') = ServiceRestart.service_manager (self s)
      /\ ServiceRestart.start_time (self s') = ServiceRestart.start_time (self s)
      /\ ServiceRestart.stop s' = (Ok true, s')).
Proof.
  split; intros s; [open_cpu s | open_svc s]; repeat split; reflexivity.
Qed.

Lemma cpu_step_effect (s : Sys CPUMonitor.Plugin) (c : cpu_call) :
  cpu_effect (self s) (self (cpu_step s c)).
Proof.
  destruct c as [ | conf | | | | | | ]; simpl.
  - apply cpu_untouched. unfold CPUMonitor.get_info, datetime_now.
    revert s. change (preserves same_self CPUMonitor.get_info).
    unfold CPUMonitor.get_info, datetime_now. reading.
  - open_cpu s. unfold CPUMonitor.initialize. run_monad.
    repeat (break_match; simpl); apply cpu_initialized; simpl; auto.
  - open_cpu s. destruct run; simpl.
    + apply cpu_untouched. reflexivity.
    + apply cpu_started; simpl; auto; discriminate.
  - apply cpu_stopped; reflexivity.
  - apply cpu_untouched. reflexivity.
  - apply cpu_untouched. revert s. change (preserves same_self CPUMonitor.get_health).
    unfold CPUMonitor.get_health, CPUMonitor._get_cpu_usage, datetime_now. reading.
  - apply cpu_untouched. revert s. change (preserves same_self CPUMonitor.detect_triggers).
    unfold CPUMonitor.detect_triggers, CPUMonitor._probe_host, CPUMonitor._get_cpu_usage, datetime_now. reading.
  - apply cpu_untouched. reflexivity.
Qed.

Lemma service_step_effect (s : Sys ServiceRestart.Plugin) (c : service_call) :
  service_effect (self s) (self (service_step s c)).
Proof.
  destruct c as [ | conf | | | | | req | ]; simpl.
  - apply service_untouched. revert s. change (preserves same_self ServiceRestart.get_info).
    unfold ServiceRestart.get_info, datetime_now. reading.
  - open_svc s.
    unfold ServiceRestart.initialize, ServiceRestart._check_service_manager,
      ServiceRestart.run.
    run_monad.
    repeat (break_match; simpl); apply service_initialized; simpl; auto.
  - open_svc s. destruct run; simpl.
    + apply service_untouched. reflexivity.
    + apply service_started; simpl; auto; discriminate.
  - apply service_stopped; reflexivity.
  - apply service_untouched. reflexivity.
  - apply service_untouched. revert s. change (preserves same_self ServiceRestart.get_health).
    unfold ServiceRestart.get_health, datetime_now. reading.
  - apply service_untouched. revert s.
    change (preserves same_self (ServiceRestart.execute_action req)).
    unfold ServiceRestart.execute_action, ServiceRestart.attempt,
      ServiceRestart._create_error_result, ServiceRestart._is_valid_service_name,
      ServiceRestart._execute_restart_command,
      ServiceRestart._simulate_restart_command,
      ServiceRestart.run, ServiceRestart.sleep, datetime_now.
    reading.
  - apply service_untouched. reflexivity.
Qed.

Lemma cpu_effect_ok (p p' : CPUMonitor.Plugin) :
  cpu_effect p p' -> cpu_lifecycle_ok p -> cpu_lifecycle_ok p'.
Proof.
  unfold cpu_lifecycle_ok, lifecycle_states.
  intros [->|Hr Ht [Hs|Hs]|H0 Hr Hs Ht|Hr Hs Ht] (H1 & H2 & H3 & H4);
    try (repeat split; assumption);
    rewrite ?Hr, ?Hs, ?Ht; simpl;
    (split; [tauto|]); repeat split; intros; try discriminate; auto.
Qed.

Lemma service_effect_ok (p p' : ServiceRestart.Plugin) :
  service_effect p p' -> service_lifecycle_ok p -> service_lifecycle_ok p'.
Proof.
  unfold service_lifecycle_ok, lifecycle_states.
  intros [->|Hr Ht [Hs|Hs]|H0 Hr Hs Ht|Hr Hs Ht] (H1 & H2 & H3 & H4);
    try (repeat split; assumption);
    rewrite ?Hr, ?Hs, ?Ht; simpl;
    (split; [tauto|]); repeat split; intros; try discriminate; auto.
Qed.

(** X8.  In every state a sequence of method calls can reach, the lifecycle
    state is one of stopped, initialized, running and error; it is running
    only if the running flag is set, stopped only if the flag is cleared,
    and a set flag comes with a recorded start_time. *)
Theorem lifecycle_invariant :
  (forall (E : Env) (calls : list cpu_call),
      cpu_lifecycle_ok (self (cpu_after E calls)))
  /\
  (forall (E : Env) (calls : list service_call),
      service_lifecycle_ok (self (service_after E calls))).
Proof.
  split; intros E calls.
  - unfold cpu_after.
    assert (H : cpu_lifecycle_ok (self (CPUMonitor.boot E))).
    { unfold cpu_lifecycle_ok, lifecycle_states. simpl.
      repeat split; intros; try discriminate; auto. }
    revert H. generalize (CPUMonitor.boot E).
    induction calls as [|c calls IH]; intros s H; simpl; [exact H|].
    apply IH. exact (cpu_effect_ok _ _ (cpu_step_effect s c) H).
  - unfold service_after.
    assert (H : service_lifecycle_ok (self (ServiceRestart.boot E))).
    { unfold service_lifecycle_ok, lifecycle_states. simpl.
      repeat split; intros; try discriminate; auto. }
    revert H. generalize (ServiceRestart.boot E).
    induction calls as [|c calls IH]; intros s H; simpl; [exact H|].
    apply IH. exact (service_effect_ok _ _ (service_step_effect s c) H).
Qed.

(** X9.  [initialize] assigns before it validates and does not roll back:
    the configuration object is stored whatever happens, the trigger plugin
    keeps the threshold and interval it derived even when it rejects them,
    and the action plugin keeps the allow-list and service manager it was
    given.  The running flag and start_time are never touched. *)
Theorem initialize_assigns_before_validating :
  (forall (s : Sys CPUMonitor.Plugin) (conf : pyval),
      let E := env (world s) in
      let s' := snd (CPUMonitor.initialize conf s) in
      CPUMonitor.config (self s') = conf
      /\ CPUMonitor.running (self s') = CPUMonitor.running (self s)
      /\ CPUMonitor.start_time (self s') = CPUMonitor.start_time (self s)
      /\ world s' = world s
      /\ (forall f, Claim.derived_threshold E conf = Ok f ->
                    CPUMonitor.threshold (self s') = f)
      /\ (forall f n, Claim.derived_threshold E conf = Ok f ->
                      Claim.derived_interval E conf = Ok n ->
                      CPUMonitor.interval (self s') = n))
  /\
  (forall (s : Sys ServiceRestart.Plugin) (d : dict),
      let s' := snd (ServiceRestart.initialize (PDict d) s) in
      ServiceRestart.config (self s') = PDict d
      /\ ServiceRestart.running (self s') = ServiceRestart.running (self s)
      /\ ServiceRestart.start_time (self s') = ServiceRestart.start_time (self s)
      /\ ServiceRestart.allowed_services (self s')
         = dict_get d "allowed_services" (PList [])
      /\ ServiceRestart.service_manager (self s')
         = dict_get d "service_manager" (PStr "systemctl")).
Proof.
  split.
  - intros s conf E s'. subst E s'. open_cpu s.
    unfold Claim.derived_threshold, Claim.derived_interval, CPUMonitor.initialize.
    run_monad.
    destruct (py_get conf "threshold" (PFloat PyFloat.f80)) as [t|e]; simpl;
      [|repeat split; intros; discriminate].
    destruct (py_float E t) as [f|e]; simpl; [|repeat split; intros; discriminate].
    destruct (py_get conf "interval" (PInt 30)) as [i|e]; simpl;
      [|repeat split; intros; congruence].
    destruct (py_int E i) as [n|e]; simpl; [|repeat split; intros; congruence].
    destruct (CPUMonitor.threshold_in_range f); simpl;
      [|repeat split; intros; congruence].
    destruct (n <? 1); simpl; repeat split; intros; congruence.
  - intros s d s'. subst s'. open_svc s.
    unfold ServiceRestart.initialize, ServiceRestart._check_service_manager,
      ServiceRestart.run.
    run_monad.
    repeat (break_match; simpl); repeat split; reflexivity.
Qed.

(** X10.  [detect_triggers()] never raises and never changes the plugin
    object.  When the plugin is not running it returns None without reading
    the sensor; when the sensor fails it returns None as well, the failure
    being swallowed. *)
Theorem detect_triggers_never_raises :
  forall s : Sys CPUMonitor.Plugin,
    (CPUMonitor.running (self s) = false ->
     CPUMonitor.detect_triggers s = (Ok PNone, s))
    /\ (forall e, CPUMonitor.running (self s) = true ->
                  cpu_percent (env (world s)) (tick (world s)) = inl e ->
                  CPUMonitor.detect_triggers s = (Ok PNone, ticked s))
    /\ (exists v, fst (CPUMonitor.detect_triggers s) = Ok v)
    /\ self (snd (CPUMonitor.detect_triggers s)) = self s.
Proof.
  intros s. open_cpu s.
  unfold CPUMonitor.detect_triggers, CPUMonitor._probe_host,
    CPUMonitor._get_cpu_usage, ticked.
  run_monad.
  split; [intros ->; reflexivity|].
  split; [intros e -> He; simpl; rewrite He; reflexivity|].
  destruct run; simpl; [|split; [eexists|]; reflexivity].
  destruct (cpu_percent E k); simpl; [split; [eexists|]; reflexivity|].
  destruct (PyFloat.ltb thr f); simpl;
    [destruct (host_probe E (S (S (S k)))); simpl|];
    split; try eexists; reflexivity.
Qed.

(** X11.  [get_health] has no handler of its own: a failing CPU sensor
    (trigger plugin) or an allow-list that has no length (action plugin)
    reaches the handler of the loop, which answers get_health with
    [{"error": "Plugin error: ..."}] and goes on. *)
Theorem get_health_fault_is_protocol_error :
  forall (l : string) (rest : list (exn + string)) (cmd : dict) (e : exn),
    strip l <> "" ->
    dict_find cmd "action" = Some (PStr "get_health") ->
    (forall s : Sys CPUMonitor.Plugin,
        json_loads (env (world s)) (strip l) = Ok (PDict cmd) ->
        cpu_percent (env (world s)) (S (tick (world s))) = inl e ->
        main_loop CPUMonitor.dispatch (inr l :: rest) s
        = main_loop CPUMonitor.dispatch rest
            (emit (ticked (ticked s))
                  (PDict [("error", PStr ("Plugin error: " ++ exn_str e))])))
    /\
    (forall s : Sys ServiceRestart.Plugin,
        json_loads (env (world s)) (strip l) = Ok (PDict cmd) ->
        py_len (ServiceRestart.allowed_services (self s)) = Raise e ->
        main_loop ServiceRestart.dispatch (inr l :: rest) s
        = main_loop ServiceRestart.dispatch rest
            (emit (ticked s)
                  (PDict [("error", PStr ("Plugin error: " ++ exn_str e))]))).
Proof.
  intros l rest cmd e Hl Hact.
  split; intros s Hjson He; rewrite (main_loop_cons _ l rest s Hl); f_equal.
  - open_cpu s. simpl in *.
    unfold answer, handle_line, plugin_error, CPUMonitor.dispatch,
      CPUMonitor.get_health, CPUMonitor._get_cpu_usage, emit, ticked.
    run_monad. rewrite Hjson. simpl.
    rewrite (dict_get_found cmd "action" PNone _ Hact). simpl.
    rewrite He. reflexivity.
  - open_svc s. simpl in *.
    unfold answer, handle_line, plugin_error, ServiceRestart.dispatch,
      ServiceRestart.get_health, emit, ticked.
    run_monad. rewrite Hjson. simpl.
    rewrite (dict_get_found cmd "action" PNone _ Hact). simpl.
    rewrite He. reflexivity.
Qed.

Lemma execute_action_terminal (s : Sys ServiceRestart.Plugin) (d : dict) :
  match ServiceRestart.execute_action (PDict d) s with
  | (Ok r, _) => exists id, dict_find d "id" = Some id /\ terminal_result id r
  | (Raise e, _) => dict_find d "id" = None
  end.
Proof.
  open_svc s. open_execute_action. unfold terminal_result.
  destruct (dict_find d "id") as [id|] eqn:Hid; simpl.
  - repeat (break_match; simpl);
      (exists id; split; [reflexivity|]; split; [reflexivity|]);
      first [ right; split; [reflexivity|]; eexists; reflexivity
            | left; split; [reflexivity|]; split; [reflexivity|];
              eexists; split; reflexivity ].
  - destruct run; reflexivity.
Qed.

(** X12.  Every result [execute_action] returns carries the id of the
    request and is terminal: status completed with data and no error, or
    status failed with an error text; a result is returned only for a
    request object that has an id, and a request that is not an object
    raises the subscript error. *)
Theorem execute_action_results :
  (forall (s s' : Sys ServiceRestart.Plugin) (req r : pyval),
      ServiceRestart.execute_action req s = (Ok r, s') ->
      exists d id,
        req = PDict d /\ dict_find d "id" = Some id /\ terminal_result id r)
  /\
  (forall (s : Sys ServiceRestart.Plugin) (req : pyval),
      is_dict req = false ->
      fst (ServiceRestart.execute_action req s) = Raise (bad_subscript req)).
Proof.
  split.
  - intros s s' req r H.
    destruct req as [ | | | | | | d | | ];
      try (exfalso; revert H; open_svc s; open_execute_action;
           destruct run; simpl; discriminate).
    pose proof (execute_action_terminal s d) as Ht. rewrite H in Ht.
    destruct Ht as (id & Hid & Ht). exists d, id. auto.
  - intros s req Hreq. open_svc s. open_execute_action.
    destruct req; try discriminate Hreq; destruct run; reflexivity.
Qed.







Lemma name_char_not_line_feed : ServiceRestart.name_char line_feed = false.
Proof. reflexivity. Qed.

Lemma name_rest_spec (s : string) :
  ServiceRestart.name_rest s = true <->
  exists body,
    all_chars ServiceRestart.name_char body = true
    /\ (s = body \/ s = body ++ String line_feed "").
Proof.
  induction s as [|c s IH]; simpl.
  - split; [|reflexivity]. intros _. exists "". split; [reflexivity | left; reflexivity].
  - destruct (ServiceRestart.name_char c) eqn:Hc.
    + rewrite IH. split.
      * intros (body & Hb & Hs). exists (String c body). simpl. rewrite Hc, Hb.
        split; [reflexivity|]. destruct Hs as [->| ->]; [left|right]; reflexivity.
      * intros (body & Hb & Hs).
        destruct body as [|c' body]; simpl in *.
        { destruct Hs as [Hs|Hs]; [discriminate|].
          injection Hs as -> ->. rewrite name_char_not_line_feed in Hc. discriminate. }
        apply andb_prop in Hb. destruct Hb as [_ Hb].
        exists body. split; [exact Hb|].
        destruct Hs as [Hs|Hs]; injection Hs as _ ->; [left|right]; reflexivity.
    + split.
      * intros H. apply andb_prop in H. destruct H as [H1 H2].
        apply Nat.eqb_eq in H1. apply String.eqb_eq in H2. subst s.
        exists "". split; [reflexivity|]. right. simpl. f_equal.
        unfold line_feed. rewrite <- H1. symmetry. apply ascii_nat_embedding.
      * intros (body & Hb & Hs).
        destruct body as [|c' body]; simpl in *.
        { destruct Hs as [Hs|Hs]; [discriminate|].
          injection Hs as -> ->. reflexivity. }
        apply andb_prop in Hb. destruct Hb as [Hc' _].
        destruct Hs as [Hs|Hs]; injection Hs as -> _; congruence.
Qed.

(** X18.  [_is_valid_service_name] accepts exactly the strings of at most
    100 characters made of one or more letters, digits, dots, underscores
    and hyphens, optionally followed by one line feed (which the [$] of the
    pattern lets through). *)
Theorem service_name_pattern :
  forall name : string,
    valid_name name = true <->
    (exists body,
        body <> ""
        /\ all_chars ServiceRestart.name_char body = true
        /\ (name = body \/ name = body ++ String line_feed ""))
    /\ (String.length name <= 100)%nat.
Proof.
  intros name. unfold valid_name. rewrite andb_true_iff, Nat.leb_le.
  apply and_iff_compat_r.
  destruct name as [|c s]; simpl.
  - split; [discriminate|]. intros (body & Hne & _ & [H|H]).
    + congruence.
    + destruct body; [congruence | discriminate].
  - rewrite andb_true_iff, name_rest_spec. split.
    + intros (Hc & body & Hb & Hs). exists (String c body). simpl. rewrite Hc, Hb.
      split; [discriminate|]. split; [reflexivity|].
      destruct Hs as [->| ->]; [left|right]; reflexivity.
    + intros (body & Hne & Hb & Hs).
      destruct body as [|c' body]; [congruence|]. simpl in *.
      apply andb_prop in Hb. destruct Hb as [Hc' Hb].
      destruct Hs as [Hs|Hs]; injection Hs as -> ->;
        (split; [exact Hc'|]); exists body; (split; [exact Hb|]);
        [left|right]; reflexivity.
Qed.

(** X19.  [initialize] of the action plugin: an unsupported service manager
    fails without running anything; systemctl and docker are available only
    if their --version command exits with status 0; service is available as
    soon as its --version command runs to its end, whatever the exit
    status; a command that cannot be run means not available. *)
Theorem service_manager_availability :
  forall (s : Sys ServiceRestart.Plugin) (d : dict),
    let E := env (world s) in
    let k := tick (world s) in
    let manager := dict_get d "service_manager" (PStr "systemctl") in
    (in_strs manager ServiceRestart.managers = false ->
     initialize_gave s d false
     /\ world (snd (ServiceRestart.initialize (PDict d) s)) = world s)
    /\
    (manager = PStr "service" ->
     match subprocess_run E k ["service"; "--version"] with
     | inr _ => initialize_gave s d true
     | inl _ => initialize_gave s d false
     end)
    /\
    (manager = PStr "systemctl" ->
     match subprocess_run E k ["systemctl"; "--version"] with
     | inr c => initialize_gave s d (returncode c =? 0)
     | inl _ => initialize_gave s d false
     end)
    /\
    (manager = PStr "docker" ->
     match subprocess_run E k ["docker"; "--version"] with
     | inr c => initialize_gave s d (returncode c =? 0)
     | inl _ => initialize_gave s d false
     end).
Proof.
  intros s d E k manager. subst E k manager. open_svc s. unfold initialize_gave.
  unfold ServiceRestart.initialize, ServiceRestart._check_service_manager,
    ServiceRestart.run.
  run_monad.
  split; [|split; [|split]].
  - unfold in_strs, ServiceRestart.managers. simpl. intros ->.
    repeat split; reflexivity.
  - intros ->. simpl.
    destruct (subprocess_run E k ["service"; "--version"]) as [[kind msg]|c]; simpl.
    + destruct kind; simpl; split; reflexivity.
    + split; reflexivity.
  - intros ->. simpl.
    destruct (subprocess_run E k ["systemctl"; "--version"]) as [[kind msg]|c]; simpl.
    + destruct kind; simpl; split; reflexivity.
    + destruct (returncode c =? 0); simpl; split; reflexivity.
  - intros ->. simpl.
    destruct (subprocess_run E k ["docker"; "--version"]) as [[kind msg]|c]; simpl.
    + destruct kind; simpl; split; reflexivity.
    + destruct (returncode c =? 0); simpl; split; reflexivity.
Qed.

Lemma str_of_Z_injective (a b : Z) : str_of_Z a = str_of_Z b -> a = b.
Proof.
  unfold str_of_Z. intros H.
  assert (Hi : Z.to_int a = Z.to_int b).
  { pose proof (NilEmpty.isi (Z.to_int a)) as Ha.
    pose proof (NilEmpty.isi (Z.to_int b)) as Hb.
    rewrite H in Ha. congruence. }
  rewrite <- (DecimalZ.of_to a), <- (DecimalZ.of_to b), Hi. reflexivity.
Qed.

(** X20.  The id of a trigger event is "cpu-high-" followed by the whole
    seconds of [time.time()]: two events have the same id exactly when they
    were emitted in the same second. *)
Theorem event_ids_by_second :
  forall (s1 s2 : Sys CPUMonitor.Plugin) (ev1 ev2 : dict),
    fst (CPUMonitor.detect_triggers s1) = Ok (PDict ev1) ->
    fst (CPUMonitor.detect_triggers s2) = Ok (PDict ev2) ->
    dict_find ev1 "id"
      = Some (PStr ("cpu-high-"
                      ++ str_of_Z (unix_time (env (world s1)) (S (tick (world s1))))))
    /\ (dict_find ev1 "id" = dict_find ev2 "id"
        <-> unix_time (env (world s1)) (S (tick (world s1)))
            = unix_time (env (world s2)) (S (tick (world s2)))).
Proof.
  intros s1 s2 ev1 ev2 H1 H2.
  assert (Hid : forall (s : Sys CPUMonitor.Plugin) ev,
             fst (CPUMonitor.detect_triggers s) = Ok (PDict ev) ->
             dict_find ev "id"
             = Some (PStr ("cpu-high-"
                             ++ str_of_Z (unix_time (env (world s)) (S (tick (world s))))))).
  { intros s ev. open_cpu s.
    unfold CPUMonitor.detect_triggers, CPUMonitor._probe_host, CPUMonitor._get_cpu_usage. run_monad.
    repeat (break_match; simpl); intros H; try discriminate H;
      injection H as <-; reflexivity. }
  rewrite (Hid s1 ev1 H1), (Hid s2 ev2 H2). split; [reflexivity|].
  split.
  - intros H. injection H as H. exact (str_of_Z_injective _ _ H).
  - intros ->. reflexivity.
Qed.

Lemma one_response_per_line_witness :
  let l := Demo.command_line "get_status" in
  let blank := Demo.newline in
  (stdout (world (CPUMonitor.main Demo.E [inl Demo.not_text]))
   = [PDict [("error", PStr ("Plugin error: " ++ exn_str Demo.not_text))]])
  /\ served [inl Demo.not_text; inr l; inr blank; inr l]
     = [inl Demo.not_text; inr l]
  /\ List.length
       (stdout (world (ServiceRestart.main Demo.E
                         [inl Demo.not_text; inr l; inr blank; inr l])))
     = 2%nat.
Proof.
  intros l blank. split; [|split].
  - unfold CPUMonitor.main.
    rewrite (proj1 (proj2 one_response_per_line Demo.not_text [])
               (CPUMonitor.boot Demo.E)).
    reflexivity.
  - reflexivity.
  - exact (proj1 (proj2 (proj1 one_response_per_line Demo.E
                           [inl Demo.not_text; inr l; inr blank; inr l]))).
Defined.

Lemma malformed_line_answer_witness :
  let l := "restart nginx" ++ Demo.newline in
  let big := Demo.digits 4301 ++ Demo.newline in
  let E := Demo.with_json (fun _ => Raise Demo.too_many_digits) in
  strip l <> ""
  /\ json_loads Demo.E (strip l) = Raise Demo.decode_error
  /\ stdout (world (CPUMonitor.main Demo.E [inr l]))
     = [PDict [("error", PStr "Invalid JSON command")]]
  /\ strip big <> ""
  /\ stdout (world (ServiceRestart.main E [inr big]))
     = [PDict [("error",
          PStr ("Plugin error: " ++ exn_str Demo.too_many_digits))]].
Proof.
  intros l big E. assert (Hl : strip l <> "") by discriminate.
  assert (Hb : strip big <> "") by (vm_compute; discriminate).
  split; [exact Hl|]. split; [reflexivity|]. split; [|split; [exact Hb|]].
  - unfold CPUMonitor.main.
    rewrite (proj1 (malformed_line_answer l [] Demo.decode_error Hl)
               (CPUMonitor.boot Demo.E) eq_refl).
    reflexivity.
  - unfold ServiceRestart.main.
    rewrite (proj2 (malformed_line_answer big [] Demo.too_many_digits Hb)
               (ServiceRestart.boot E) eq_refl).
    reflexivity.
Defined.

Lemma non_object_command_answer_witness :
  let E := Demo.with_json (fun _ => Ok (PList [PInt 1])) in
  let l := "[1]" ++ Demo.newline in
  strip l <> ""
  /\ stdout (world (ServiceRestart.main E [inr l]))
     = [PDict [("error",
          PStr "Plugin error: 'list' object has no attribute 'get'")]].
Proof.
  intros E l. assert (Hl : strip l <> "") by discriminate.
  split; [exact Hl|]. unfold ServiceRestart.main.
  rewrite (proj2 (non_object_command_answer l [] (PList [PInt 1]) Hl eq_refl)
             (ServiceRestart.boot E) eq_refl).
  reflexivity.
Defined.

Lemma missing_action_answer_witness :
  let E := Demo.with_json (fun _ => Ok (PDict [("config", PDict [])])) in
  let l := "{}" ++ Demo.newline in
  strip l <> ""
  /\ stdout (world (CPUMonitor.main E [inr l]))
     = [PDict [("action", PNone); ("success", PBool false);
               ("error", PStr "Unknown action: None")]].
Proof.
  intros E l. assert (Hl : strip l <> "") by discriminate.
  split; [exact Hl|]. unfold CPUMonitor.main.
  rewrite (proj1 (missing_action_answer l [] [("config", PDict [])] Hl eq_refl)
             (CPUMonitor.boot E) eq_refl).
  reflexivity.
Defined.

Lemma response_envelope_witness :
  let line := strip (Demo.command_line "initialize") in
  let s := ServiceRestart.boot Demo.real_mode in
  json_loads (env (world s)) line = Ok (PDict [("action", PStr "initialize")])
  /\ exists v,
       stdout (world (snd (answer ServiceRestart.dispatch line s))) = [v]
       /\ envelope Demo.real_mode service_actions (PStr "initialize") v.
Proof.
  intros line s. split; [reflexivity|].
  exact (proj2 (response_envelope line [("action", PStr "initialize")]) s eq_refl).
Defined.

Lemma only_lifecycle_commands_change_plugin_witness :
  let line := strip (Demo.command_line "get_health") in
  let s := cpu_after Demo.E [CpuStart] in
  lifecycle_command Demo.E line = false
  /\ self (snd (answer CPUMonitor.dispatch line s)) = self s.
Proof.
  intros line s. split; [reflexivity|].
  exact (proj1 (only_lifecycle_commands_change_plugin line) s eq_refl).
Defined.

Lemma get_health_fault_is_protocol_error_witness :
  let l := Demo.command_line "get_health" in
  let s := CPUMonitor.boot Demo.broken_sensor in
  strip l <> ""
  /\ stdout (world (snd (main_loop CPUMonitor.dispatch [inr l] s)))
     = [PDict [("error", PStr "Plugin error: sensor unavailable")]].
Proof.
  intros l s. assert (Hl : strip l <> "") by discriminate.
  split; [exact Hl|].
  rewrite (proj1 (get_health_fault_is_protocol_error l []
                    [("action", PStr "get_health")]
                    (Exn OtherError "sensor unavailable") Hl eq_refl)
             s eq_refl eq_refl).
  reflexivity.
Defined.

Lemma initialize_assigns_before_validating_witness :
  let s := cpu_after Demo.E [CpuStart] in
  let conf := PDict [("threshold", PInt 150)] in
  let s' := snd (CPUMonitor.initialize conf s) in
  Claim.derived_threshold Demo.E conf = Ok (PyFloat.of_Z 150)
  /\ fst (CPUMonitor.initialize conf s) = Ok false
  /\ CPUMonitor.threshold (self s') = PyFloat.of_Z 150
  /\ fst (CPUMonitor.detect_triggers s') = Ok PNone.
Proof.
  intros s conf s'. split; [reflexivity|]. split; [reflexivity|].
  split; [|reflexivity].
  destruct (proj1 initialize_assigns_before_validating s conf)
    as (_ & _ & _ & _ & H & _).
  exact (H (PyFloat.of_Z 150) eq_refl).
Defined.

Lemma detect_triggers_never_raises_witness :
  let s := snd (CPUMonitor.start (CPUMonitor.boot Demo.broken_sensor)) in
  CPUMonitor.running (self s) = true
  /\ cpu_percent (env (world s)) (tick (world s))
     = inl (Exn OtherError "sensor unavailable")
  /\ CPUMonitor.detect_triggers s = (Ok PNone, ticked s).
Proof.
  intros s. split; [reflexivity|]. split; [reflexivity|].
  destruct (detect_triggers_never_raises s) as (_ & H & _).
  exact (H _ eq_refl eq_refl).
Defined.

Lemma execute_action_results_witness :
  let s := snd (ServiceRestart.start (ServiceRestart.boot Demo.E)) in
  exists r d id,
    fst (ServiceRestart.execute_action (PDict Demo.nginx_request) s) = Ok r
    /\ PDict Demo.nginx_request = PDict d
    /\ dict_find d "id" = Some id
    /\ terminal_result id r.
Proof.
  intros s.
  destruct (proj1 execute_action_results s _ (PDict Demo.nginx_request) _ eq_refl)
    as (d & id & H1 & H2 & H3).
  eexists. exists d, id. split; [reflexivity|]. auto.
Defined.







Lemma service_manager_availability_witness :
  let s := ServiceRestart.boot Demo.real_mode in
  in_strs (PStr "upstart") ServiceRestart.managers = false
  /\ initialize_gave s [("service_manager", PStr "upstart")] false
  /\ initialize_gave s [("service_manager", PStr "docker")] false
  /\ initialize_gave (ServiceRestart.boot Demo.E) [("service_manager", PStr "service")]
       true.
Proof.
  intros s. split; [reflexivity|]. split; [|split].
  - exact (proj1 (proj1 (service_manager_availability s
                           [("service_manager", PStr "upstart")]) eq_refl)).
  - exact (proj2 (proj2 (proj2 (service_manager_availability s
                                  [("service_manager", PStr "docker")]))) eq_refl).
  - exact (proj1 (proj2 (service_manager_availability (ServiceRestart.boot Demo.E)
                           [("service_manager", PStr "service")])) eq_refl).
Defined.

Lemma event_ids_by_second_witness :
  let s1 := cpu_after Demo.E [CpuStart] in
  let s2 := cpu_after Demo.E [CpuStart; CpuDetectTriggers] in
  exists ev1 ev2,
    fst (CPUMonitor.detect_triggers s1) = Ok (PDict ev1)
    /\ fst (CPUMonitor.detect_triggers s2) = Ok (PDict ev2)
    /\ dict_find ev1 "id" = Some (PStr "cpu-high-1700000000")
    /\ dict_find ev1 "id" = dict_find ev2 "id".
Proof.
  intros s1 s2. do 2 eexists.
  split; [reflexivity|]. split; [reflexivity|].
  destruct (event_ids_by_second s1 s2 _ _ eq_refl eq_refl) as [H1 H2].
  split; [exact H1 | exact (proj2 H2 eq_refl)].
Defined.

(** X21.  The schema [get_trigger_config] publishes agrees with
    [initialize]: every example configuration it lists is accepted, its
    defaults are the values [initialize] uses for missing keys, and the
    bounds it gives (threshold minimum and maximum, interval minimum) are
    themselves accepted. *)
Theorem trigger_schema_agrees_with_initialize :
  forall (s : Sys CPUMonitor.Plugin),
    exists schema examples,
      CPUMonitor.get_trigger_config s = (Ok schema, s)
      /\ field schema "examples" = Some (PList examples)
      /\ examples <> []
      /\ (forall ex, In ex examples ->
            fst (CPUMonitor.initialize ex s) = Ok true)
      /\ (let s' := snd (CPUMonitor.initialize (PDict []) s) in
          fst (CPUMonitor.initialize (PDict []) s) = Ok true
          /\ at_path schema ["schema"; "threshold"; "default"]
             = Some (PFloat (CPUMonitor.threshold (self s')))
          /\ at_path schema ["schema"; "interval"; "default"]
             = Some (PInt (CPUMonitor.interval (self s'))))
      /\ (forall lo hi,
            at_path schema ["schema"; "threshold"; "minimum"] = Some lo ->
            at_path schema ["schema"; "threshold"; "maximum"] = Some hi ->
            fst (CPUMonitor.initialize (PDict [("threshold", lo)]) s) = Ok true
            /\ fst (CPUMonitor.initialize (PDict [("threshold", hi)]) s) = Ok true)
      /\ (forall lo,
            at_path schema ["schema"; "interval"; "minimum"] = Some lo ->
            fst (CPUMonitor.initialize (PDict [("interval", lo)]) s) = Ok true).
Proof.
  intros s. open_cpu s. do 2 eexists.
  split; [reflexivity|]. split; [reflexivity|]. split; [discriminate|].
  split.
  { intros ex [<-|[<-|[]]]; reflexivity. }
  split; [repeat split; reflexivity|].
  split.
  { intros lo hi Hlo Hhi. injection Hlo as <-. injection Hhi as <-.
    split; reflexivity. }
  intros lo Hlo. injection Hlo as <-. reflexivity.
Qed.

(** X22.  [stop()] followed by [start()] always records a new start_time,
    the clock reading of that [start()], whatever the state before;
    [get_health] then counts the uptime from the restart. *)
Theorem restart_takes_new_start_time :
  (forall s : Sys CPUMonitor.Plugin,
      let s' := snd (CPUMonitor.start (snd (CPUMonitor.stop s))) in
      CPUMonitor.start_time (self s')
        = Some (clock (env (world s)) (tick (world s)))
      /\ CPUMonitor.running (self s') = true
      /\ fst (CPUMonitor.get_status s') = Ok "running"
      /\ tick (world s') = S (tick (world s))
      /\ match fst (CPUMonitor.get_health s') with
         | Ok h =>
             field h "uptime"
             = Some (PSeconds (clock (env (world s)) (S (S (S (tick (world s)))))
                               - clock (env (world s)) (tick (world s))))
         | Raise e => cpu_percent (env (world s)) (S (S (tick (world s)))) = inl e
         end)
  /\
  (forall s : Sys ServiceRestart.Plugin,
      let s' := snd (ServiceRestart.start (snd (ServiceRestart.stop s))) in
      ServiceRestart.start_time (self s')
        = Some (clock (env (world s)) (tick (world s)))
      /\ ServiceRestart.running (self s') = true
      /\ fst (ServiceRestart.get_status s') = Ok "running"
      /\ tick (world s') = S (tick (world s))
      /\ match fst (ServiceRestart.get_health s') with
         | Ok h =>
             field h "uptime"
             = Some (PSeconds (clock (env (world s)) (S (S (tick (world s))))
                               - clock (env (world s)) (tick (world s))))
         | Raise e => py_len (ServiceRestart.allowed_services (self s)) = Raise e
         end).
Proof.
  split; intros s; [open_cpu s | open_svc s];
    (split; [reflexivity|]); (split; [reflexivity|]); (split; [reflexivity|]);
    (split; [reflexivity|]).
  - unfold CPUMonitor.get_health, CPUMonitor._get_cpu_usage. run_monad.
    destruct (cpu_percent E (S (S k))); reflexivity.
  - unfold ServiceRestart.get_health. run_monad.
    destruct (py_len allowed); reflexivity.
Qed.

Lemma trigger_schema_agrees_with_initialize_witness :
  let s := CPUMonitor.boot Demo.E in
  let ex := PDict [("threshold", PFloat PyFloat.f85); ("interval", PInt 30)] in
  exists schema examples,
    fst (CPUMonitor.get_trigger_config s) = Ok schema
    /\ field schema "examples" = Some (PList examples)
    /\ In ex examples
    /\ fst (CPUMonitor.initialize ex s) = Ok true.
Proof.
  intros s ex.
  destruct (trigger_schema_agrees_with_initialize s)
    as (schema & examples & Hc & He & _ & Hex & _).
  exists schema, examples. split; [rewrite Hc; reflexivity|].
  split; [exact He|].
  assert (Hin : In ex examples).
  { unfold CPUMonitor.get_trigger_config, ret in Hc. injection Hc as <-.
    injection He as <-. left. reflexivity. }
  split; [exact Hin | exact (Hex ex Hin)].
Defined.
